(** * Plugin repository service: version resolution and download options

    A shallow embedding of [pkg/plugins/repository/service.go] and the
    properties of its version resolver.

    Go strings are byte strings and are modelled as [string]; Go maps are
    modelled as [gmap], with [option] for the difference between a nil map
    and an allocated (possibly empty) one; the logger is an append-only
    state threaded through every method of the service; errors are an
    inductive type and fallible methods return a [result]. *)

From Stdlib Require Import Ascii String.
From stdpp Require Import gmap strings list.

Local Open Scope string_scope.

(** ** The fragments of Go's [strings] package used by the service *)

Module GoStrings.

(** [strings.ReplaceAll] of a one-byte string [c] by the empty string:
    every occurrence of the byte is deleted, all other bytes are kept in
    order. *)
Fixpoint removeAll (c : ascii) (s : string) : string :=
  match s with
  | EmptyString => EmptyString
  | String a r =>
      if Ascii.eqb a c then removeAll c r else String a (removeAll c r)
  end.

(** [strings.HasPrefix(s, p)]. *)
Definition HasPrefix (s p : string) : bool := String.prefix p s.

(** The slice expression [s[1:]]; the service only evaluates it on a
    string known to start with a one-byte prefix. *)
Definition from1 (s : string) : string :=
  match s with
  | EmptyString => EmptyString
  | String _ r => r
  end.

(** [strings.Cut(s, c)] for a one-byte separator: the text before the
    first occurrence, the text after it, and whether it occurs. *)
Fixpoint Cut (c : ascii) (s : string) : string * string * bool :=
  match s with
  | EmptyString => (EmptyString, EmptyString, false)
  | String a r =>
      if Ascii.eqb a c then (EmptyString, r, true)
      else let '(before, after, found) := Cut c r in (String a before, after, found)
  end.

(** [s[strings.LastIndex(s, c)+1:]] for a one-byte string [c]: the text
    after the last occurrence of the byte, the whole of [s] when there is
    none.  [acc] is the answer for the bytes read so far. *)
Fixpoint afterLast_from (c : ascii) (s acc : string) : string :=
  match s with
  | EmptyString => acc
  | String a r =>
      if Ascii.eqb a c then afterLast_from c r r else afterLast_from c r acc
  end.

Definition afterLast (c : ascii) (s : string) : string := afterLast_from c s s.

(** [sub] occurs in [s] ([strings.Contains] as a proposition). *)
Definition Contains (s sub : string) : Prop :=
  exists pre post : string, s = pre +:+ sub +:+ post.

(** A byte occurs in a string. *)
Fixpoint hasByte (c : ascii) (s : string) : bool :=
  match s with
  | EmptyString => false
  | String a r => Ascii.eqb a c || hasByte c r
  end.

(** A whitespace byte (tab, line feed, vertical tab, form feed, carriage
    return or space) occurs in a string. *)
Fixpoint hasWhitespace (s : string) : bool :=
  match s with
  | EmptyString => false
  | String a r => Ascii.is_space a || hasWhitespace r
  end.

(** The string of [n] copies of a byte. *)
Fixpoint Repeat (c : ascii) (n : nat) : string :=
  match n with
  | O => EmptyString
  | S k => String c (Repeat c k)
  end.

End GoStrings.

(** ** The data model (package [repository]) *)

(** [ArchMeta]: the per-platform record of a release. *)
Record ArchMeta := { SHA256 : string }.

(** The zero value of [ArchMeta], which a Go map lookup yields for an
    absent key. *)
Definition zeroArchMeta : ArchMeta := {| SHA256 := EmptyString |}.

(** [Version]: one published release.  [Arch = None] is the nil map. *)
Module Version.
Record t := {
  Version : string;
  Arch : option (gmap string ArchMeta)
}.
Definition zero : t := {| Version := EmptyString; Arch := None |}.
End Version.

(** [Plugin]: the catalog of one plugin. *)
Module Plugin.
Record t := {
  ID : string;
  Versions : list Version.t
}.
End Plugin.

(** [PluginDownloadOptions]: what the service hands to the downloader. *)
Module PluginDownloadOptions.
Record t := {
  Version : string;
  Checksum : string;
  PluginZipURL : string
}.
End PluginDownloadOptions.

(** [CompatabilityOpts]. *)
Record CompatabilityOpts := { GrafanaVersion : string }.

(** The errors a method of the service can return: the two resolution
    errors, and the opaque errors of the collaborators (URL parsing,
    transport, JSON decoding). *)
Inductive error :=
| ErrVersionUnsupported (PluginID RequestedVersion SystemInfo : string)
| ErrVersionNotFound (PluginID RequestedVersion SystemInfo : string)
| ErrExternal (msg : string).

Inductive result (A : Type) :=
| Ok (a : A)
| Err (e : error).
Arguments Ok {A} a.
Arguments Err {A} e.

(** ** The logger as state *)

Inductive LogLevel := LvlDebug | LvlError.

Record LogLine := { level : LogLevel; message : string }.

Definition Log := list LogLine.

(** A method of the service: it reads the log it is given, appends to it,
    and returns a value or an error. *)
Definition M (A : Type) : Type := Log -> Log * result A.

Definition ret {A} (a : A) : M A := fun l => (l, Ok a).

Definition fail {A} (e : error) : M A := fun l => (l, Err e).

Definition bind {A B} (m : M A) (k : A -> M B) : M B :=
  fun l =>
    match m l with
    | (l', Ok a) => k a l'
    | (l', Err e) => (l', Err e)
    end.

(** [s.log.Debugf] and [s.log.Error]: the formatted message is appended to
    the log (the error value passed to [Error] as context is not kept). *)
Definition log_Debugf (msg : string) : M unit :=
  fun l => ((l ++ [{| level := LvlDebug; message := msg |}])%list, Ok tt).

Definition log_Error (msg : string) : M unit :=
  fun l => ((l ++ [{| level := LvlError; message := msg |}])%list, Ok tt).

Notation "'do' x <- m ; k" := (bind m (fun x => k))
  (at level 10, x name, m at level 100, k at level 200).

(** ** The fragment of Go's [net/url] used by the service *)

Module GoUrl.

Record URL := {
  Scheme : string;
  Opaque : string;
  Host : string;
  Path : string;
  RawQuery : string;
  Fragment : string
}.

Definition withPath (u : URL) (p : string) : URL :=
  {| Scheme := Scheme u; Opaque := Opaque u; Host := Host u; Path := p;
     RawQuery := RawQuery u; Fragment := Fragment u |}.

Definition withFragment (u : URL) (f : string) : URL :=
  {| Scheme := Scheme u; Opaque := Opaque u; Host := Host u; Path := Path u;
     RawQuery := RawQuery u; Fragment := f |}.

Definition between (lo hi : nat) (c : ascii) : bool :=
  (lo <=? nat_of_ascii c)%nat && (nat_of_ascii c <=? hi)%nat.

Definition isLetter (c : ascii) : bool := between 97 122 c || between 65 90 c.

Definition isSchemeMark (c : ascii) : bool :=
  between 48 57 c || Ascii.eqb c "+" || Ascii.eqb c "-" || Ascii.eqb c ".".

(** A byte below 0x20, or 0x7f. *)
Definition isCTL (c : ascii) : bool :=
  (nat_of_ascii c <? 32)%nat || (nat_of_ascii c =? 127)%nat.

Fixpoint stringContainsCTLByte (s : string) : bool :=
  match s with
  | EmptyString => false
  | String c r => isCTL c || stringContainsCTLByte r
  end.

Definition toLower (c : ascii) : ascii :=
  if between 65 90 c then ascii_of_nat (nat_of_ascii c + 32) else c.

Fixpoint ToLower (s : string) : string :=
  match s with
  | EmptyString => EmptyString
  | String c r => String (toLower c) (ToLower r)
  end.

(** The outcome of the loop of [getScheme]: no scheme (the whole input is
    the path), a colon at index 0, or a scheme and the text after its
    colon. *)
Inductive scan :=
| ScanNone
| ScanMissing
| ScanFound (scheme rest : string).

Definition scanCons (c : ascii) (r : scan) : scan :=
  match r with
  | ScanFound scheme rest => ScanFound (String c scheme) rest
  | other => other
  end.

(** The loop of [getScheme]; [atStart] is [i == 0]. *)
Fixpoint scanScheme (atStart : bool) (s : string) : scan :=
  match s with
  | EmptyString => ScanNone
  | String c r =>
      if isLetter c then scanCons c (scanScheme false r)
      else if isSchemeMark c then
        (if atStart then ScanNone else scanCons c (scanScheme false r))
      else if Ascii.eqb c ":" then
        (if atStart then ScanMissing else ScanFound EmptyString r)
      else ScanNone
  end.

Definition getScheme (rawURL : string) : result (string * string) :=
  match scanScheme true rawURL with
  | ScanNone => Ok (EmptyString, rawURL)
  | ScanMissing => Err (ErrExternal "missing protocol scheme")
  | ScanFound scheme rest => Ok (scheme, rest)
  end.

(** [authority, rest = rest[2:], empty], then the split at the first
    slash of the authority, which stays with the rest. *)
Definition splitAuthority (rest : string) : string * string :=
  let authority := GoStrings.from1 (GoStrings.from1 rest) in
  let '(before, after, found) := GoStrings.Cut "/" authority in
  if found then (before, String "/" after) else (authority, EmptyString).

(** [parse(rawURL, false)], for the split of a URL into scheme, query,
    authority and path.  What [net/url] does beyond the split is left out:
    the host is the authority after its last at-sign, taken as it is (no
    check of the port, of brackets or of host bytes, no user field and no
    check of the user info), and the path is the raw path (no
    percent-decoding, no check of escapes).  So the model accepts some
    inputs that [net/url] rejects.  The properties below use it under a
    successful call only, or at the constant root. *)
Definition parse (rawURL : string) : result URL :=
  if stringContainsCTLByte rawURL
  then Err (ErrExternal "net/url: invalid control character in URL")
  else if String.eqb rawURL "*"
  then Ok {| Scheme := EmptyString; Opaque := EmptyString; Host := EmptyString;
             Path := "*"; RawQuery := EmptyString; Fragment := EmptyString |}
  else
    match getScheme rawURL with
    | Err e => Err e
    | Ok (scheme, rest) =>
        let scheme := ToLower scheme in
        let '(rest, query, _) := GoStrings.Cut "?" rest in
        let url host path :=
          {| Scheme := scheme; Opaque := EmptyString; Host := host;
             Path := path; RawQuery := query; Fragment := EmptyString |} in
        if negb (GoStrings.HasPrefix rest "/") && negb (String.eqb scheme EmptyString)
        then Ok {| Scheme := scheme; Opaque := rest; Host := EmptyString;
                   Path := EmptyString; RawQuery := query;
                   Fragment := EmptyString |}
        else if negb (GoStrings.HasPrefix rest "/")
                && GoStrings.hasByte ":" (GoStrings.Cut "/" rest).1.1
        then Err (ErrExternal "first path segment in URL cannot contain colon")
        else if (negb (String.eqb scheme EmptyString)
                 || negb (GoStrings.HasPrefix rest "///"))
                && GoStrings.HasPrefix rest "//"
        then
          let '(authority, rest) := splitAuthority rest in
          Ok (url (GoStrings.afterLast "@" authority) rest)
        else Ok (url EmptyString rest)
    end.

(** [url.Parse]: the fragment is cut off first; it is kept as it is (the
    decoding and the check of its escapes are left out). *)
Definition Parse (rawURL : string) : result URL :=
  let '(u, frag, _) := GoStrings.Cut "#" rawURL in
  match parse u with
  | Err e => Err e
  | Ok url => Ok (withFragment url frag)
  end.

End GoUrl.

(** ** The service *)

Definition grafanaComAPIRoot : string := "https://grafana.com/api/plugins".

(** [Service]: the client and the logger are the effects of the methods;
    the configured repository URL is the only data. *)
Record Service := { repoURL : string }.

(** ** Sample catalogs *)

Module Samples.

Definition linux : string := "linux-amd64".
Definition windows : string := "windows-amd64".

(** A system description for a process running on [linux]. *)
Definition systemInfo (grafanaVersion : string) : string :=
  "Grafana v" +:+ grafanaVersion +:+ " " +:+ linux.

Definition only (key sum : string) : option (gmap string ArchMeta) :=
  Some {[ key := {| SHA256 := sum |} ]}.

Definition entry (version : string) (arch : option (gmap string ArchMeta))
  : Version.t :=
  {| Version.Version := version; Version.Arch := arch |}.

Definition plugin (versions : list Version.t) : Plugin.t :=
  {| Plugin.ID := "test-panel"; Plugin.Versions := versions |}.

(** The newest release is for another platform. *)
Definition catalog : Plugin.t :=
  plugin [ entry "3.0" (only windows "w3");
           entry "2.0" (only "any" "a2");
           entry "1.0" (only "any" "a1") ].

(** One version string published twice. *)
Definition duplicated : Plugin.t :=
  plugin [ entry "2.0" None; entry "2.0" (only windows "w2") ].

(** An entry whose version string is empty. *)
Definition unnamed : Plugin.t :=
  plugin [ entry EmptyString (only windows "w0"); entry "1.0" None ].

Definition windowsOnly : Plugin.t :=
  plugin [ entry "1.0" (only windows "w1") ].

Definition emptyArch : Plugin.t :=
  plugin [ entry "2.0" (Some ∅); entry "1.0" (Some ∅) ].

Definition sourceOnly : Plugin.t :=
  plugin [ entry "2.0" None ].

(** The request [2.<TAB>0]. *)
Definition tabbed : string := "2." +:+ String "009" "0".

(** A service configured with another repository URL on the same host. *)
Definition mirror : Service := {| repoURL := "https://grafana.com/api" |}.

Definition official : Service := {| repoURL := grafanaComAPIRoot |}.

(** Stand-ins for the collaborators: a join of the non-empty elements
    with slashes, a remote that answers every request, and a decoder that
    yields [catalog]. *)
Definition join (parts : list string) : string :=
  String.concat "/" (filter (fun p => p <> EmptyString) parts).

Definition server (u : GoUrl.URL) (grafanaVersion : string) : M string :=
  ret "catalog".

Definition decode (body : string) : result Plugin.t := Ok catalog.

Definition opts : CompatabilityOpts := {| GrafanaVersion := "10.0.0" |}.

(** An entry whose version string contains a space. *)
Definition spaced : Plugin.t :=
  plugin [ entry "1 0" None ].

(** A decoder that yields [sourceOnly], and a client that returns the URL
    and the checksum it was given. *)
Definition decodeSource (body : string) : result Plugin.t := Ok sourceOnly.

Definition client (url checksum grafanaVersion : string) : M (string * string) :=
  ret (url, checksum).

End Samples.

Section Service.

Set Default Proof Using "Type".

(** The platform key of the running process and the system description
    put into errors: both are functions of the package that are declared
    outside this file. *)
Variable osAndArchString : string.
Variable SystemInfo : string -> string.

(** [path.Join], the HTTP client's [sendReq] and [json.Unmarshal] into a
    [Plugin]: the collaborators of [pluginMetadata].  The client is built
    with the logger of the service, so its methods run on the log. *)
Variable path_Join : list string -> string.
Variable sendReq : GoUrl.URL -> string -> M string.
Variable json_Unmarshal : string -> result Plugin.t.

Definition normalizeVersion (version : string) : string :=
  let normalized := GoStrings.removeAll " " version in
  if GoStrings.HasPrefix normalized "^" || GoStrings.HasPrefix normalized "v"
  then GoStrings.from1 normalized
  else normalized.

(** The range loop over the keys of the map returns at the first key that
    is the platform key or [any]. *)
Definition supportsCurrentArch (version : Version.t) : bool :=
  match Version.Arch version with
  | None => true
  | Some arch =>
      existsb (fun a => String.eqb a osAndArchString || String.eqb a "any")
              (map_to_list arch).*1
  end.

Fixpoint latestSupported (versions : list Version.t) : option Version.t :=
  match versions with
  | [] => None
  | ver :: rest =>
      if supportsCurrentArch ver then Some ver else latestSupported rest
  end.

Definition latestSupportedVersion (plugin : Plugin.t) : option Version.t :=
  latestSupported (Plugin.Versions plugin).

(** The loop of [selectVersion] that assigns the first entry whose version
    is the requested one to [ver] and breaks; [ver] is left as it was
    when there is none. *)
Fixpoint rangeVersions (versions : list Version.t) (version : string)
         (ver : Version.t) : Version.t :=
  match versions with
  | [] => ver
  | v :: rest =>
      if String.eqb (Version.Version v) version then v
      else rangeVersions rest version ver
  end.

Definition notFoundMessage (pluginID version fallback : string) : string :=
  "Requested plugin version " +:+ pluginID +:+ " v" +:+ version
  +:+ " not found but potential fallback version '" +:+ fallback
  +:+ "' was found".

Definition unsupportedMessage (pluginID version fallback : string) : string :=
  "Requested plugin version " +:+ pluginID +:+ " v" +:+ version
  +:+ " is not supported on your system but potential fallback version '"
  +:+ fallback +:+ "' was found".

Definition selectVersion (plugin : Plugin.t) (version grafanaVersion : string)
  : M Version.t :=
  let version := normalizeVersion version in
  match latestSupportedVersion plugin with
  | None =>
      fail (ErrVersionUnsupported (Plugin.ID plugin) version
                                  (SystemInfo grafanaVersion))
  | Some latestForArch =>
      if String.eqb version EmptyString then ret latestForArch
      else
        let ver := rangeVersions (Plugin.Versions plugin) version Version.zero in
        if (String.length (Version.Version ver) =? 0)%nat then
          do _ <- log_Debugf (notFoundMessage (Plugin.ID plugin) version
                                          (Version.Version latestForArch));
          fail (ErrVersionNotFound (Plugin.ID plugin) version
                                   (SystemInfo grafanaVersion))
        else if negb (supportsCurrentArch ver) then
          do _ <- log_Debugf (unsupportedMessage (Plugin.ID plugin) version
                                             (Version.Version latestForArch));
          fail (ErrVersionUnsupported (Plugin.ID plugin) version
                                      (SystemInfo grafanaVersion))
        else ret ver
  end.

(** The URL [pluginMetadata] sends its request to. *)
Definition metadataURL (s : Service) (pluginID : string) : result GoUrl.URL :=
  match GoUrl.Parse (repoURL s) with
  | Err e => Err e
  | Ok u => Ok (GoUrl.withPath u (path_Join [GoUrl.Path u; "repo"; pluginID]))
  end.

Definition fetchingMessage (pluginID repo : string) : string :=
  "Fetching metadata for plugin " +:+ String "034" pluginID
  +:+ String "034" (" from repo " +:+ repo).

Definition pluginMetadata (s : Service) (pluginID grafanaVersion : string)
  : M Plugin.t :=
  do _ <- log_Debugf (fetchingMessage pluginID (repoURL s));
  match metadataURL s pluginID with
  | Err e => fail e
  | Ok u =>
      do body <- sendReq u grafanaVersion;
      match json_Unmarshal body with
      | Err e =>
          do _ <- log_Error "Failed to unmarshal plugin repo response error";
          fail e
      | Ok data => ret data
      end
  end.

(** The checksum [GetDownloadOptions] computes for the selected version
    (a lookup of an absent key yields the zero [ArchMeta]). *)
Definition checksumFor (v : Version.t) : string :=
  match Version.Arch v with
  | None => EmptyString
  | Some arch =>
      let archMeta :=
        match arch !! osAndArchString with
        | Some archMeta => archMeta
        | None => default zeroArchMeta (arch !! "any")
        end in
      SHA256 archMeta
  end.

Definition zipURL (pluginID version : string) : string :=
  grafanaComAPIRoot +:+ "/" +:+ pluginID +:+ "/versions/" +:+ version
  +:+ "/download".

(** The part of [GetDownloadOptions] after the version is selected. *)
Definition buildDownloadOptions (v : Version.t) (pluginID : string)
  : PluginDownloadOptions.t :=
  {| PluginDownloadOptions.Version := Version.Version v;
     PluginDownloadOptions.Checksum := checksumFor v;
     PluginDownloadOptions.PluginZipURL := zipURL pluginID (Version.Version v) |}.

Definition GetDownloadOptions (s : Service) (pluginID version : string)
           (opts : CompatabilityOpts) : M PluginDownloadOptions.t :=
  do plugin <- pluginMetadata s pluginID (GrafanaVersion opts);
  do v <- selectVersion plugin version (GrafanaVersion opts);
  ret (buildDownloadOptions v pluginID).

(** The debug line [pluginMetadata] starts with. *)
Definition fetchingLine (s : Service) (pluginID : string) : LogLine :=
  {| level := LvlDebug; message := fetchingMessage pluginID (repoURL s) |}.

(** ** Downloading *)

(** The archive handle [*PluginArchiveInfo] and the client's [download],
    given the archive URL, the expected checksum and the Grafana version:
    both are declared outside this file.  The client shares the logger. *)
Variable PluginArchiveInfo : Type.
Variable client_download : string -> string -> string -> M PluginArchiveInfo.

Definition Download (s : Service) (pluginID version : string)
           (opts : CompatabilityOpts) : M PluginArchiveInfo :=
  do dlOpts <- GetDownloadOptions s pluginID version opts;
  client_download (PluginDownloadOptions.PluginZipURL dlOpts)
                  (PluginDownloadOptions.Checksum dlOpts)
                  (GrafanaVersion opts).

Definition DownloadWithURL (s : Service) (pluginZipURL : string)
           (opts : CompatabilityOpts) : M PluginArchiveInfo :=
  client_download pluginZipURL EmptyString (GrafanaVersion opts).



(** ** The support check in the words of the specification *)

(** An entry is supported when its checksum map is absent, or contains
    the current platform key or [any]. *)
Definition PlatformSupported (v : Version.t) : Prop :=
  match Version.Arch v with
  | None => True
  | Some arch => is_Some (arch !! osAndArchString) \/ is_Some (arch !! "any")
  end.

(** ** The support check *)

Lemma supportsCurrentArch_spec (v : Version.t) :
  supportsCurrentArch v = true <-> PlatformSupported v.
Proof.
  unfold supportsCurrentArch, PlatformSupported.
  destruct (Version.Arch v) as [arch|]; [|done].
  rewrite existsb_exists. split.
  - intros (a & Hin & Ha).
    apply list_elem_of_In, list_elem_of_fmap in Hin.
    destruct Hin as ([k x] & -> & Hkx).
    apply elem_of_map_to_list in Hkx. simpl in Ha.
    apply orb_true_iff in Ha as [Ha|Ha]; apply String.eqb_eq in Ha; subst k; eauto.
  - intros [[x Hx]|[x Hx]].
    + exists osAndArchString. split.
      * apply list_elem_of_In, list_elem_of_fmap. exists (osAndArchString, x).
        split; [done|]. by apply elem_of_map_to_list.
      * by rewrite String.eqb_refl.
    + exists "any". split.
      * apply list_elem_of_In, list_elem_of_fmap. exists ("any", x).
        split; [done|]. by apply elem_of_map_to_list.
      * rewrite (String.eqb_refl "any"). apply orb_true_r.
Qed.

Lemma supportsCurrentArch_false (v : Version.t) :
  supportsCurrentArch v = false <-> ~ PlatformSupported v.
Proof.
  rewrite <- supportsCurrentArch_spec. destruct (supportsCurrentArch v); split; congruence.
Qed.

(** ** The scan for the latest supported version *)

Lemma latestSupported_Some (versions : list Version.t) (e : Version.t) :
  latestSupported versions = Some e <->
  exists pre post,
    versions = (pre ++ e :: post)%list
    /\ Forall (fun x => ~ PlatformSupported x) pre
    /\ PlatformSupported e.
Proof.
  induction versions as [|v rest IH]; simpl.
  - split; [discriminate|]. intros (pre & post & Heq & _). by destruct pre.
  - destruct (supportsCurrentArch v) eqn:Hv.
    + split.
      * intros [= <-]. exists [], rest. split; [done|]. split; [constructor|].
        by apply supportsCurrentArch_spec.
      * intros (pre & post & Heq & Hpre & He). destruct pre as [|p pre].
        -- by injection Heq as -> _.
        -- injection Heq as -> _. apply Forall_cons in Hpre as [Hp _].
           by apply supportsCurrentArch_false in Hp; congruence.
    + rewrite IH. split.
      * intros (pre & post & -> & Hpre & He). exists (v :: pre), post.
        split; [done|]. split; [|done]. constructor; [|done].
        by apply supportsCurrentArch_false.
      * intros (pre & post & Heq & Hpre & He). destruct pre as [|p pre].
        -- injection Heq as -> _. apply supportsCurrentArch_spec in He. congruence.
        -- injection Heq as -> ->. apply Forall_cons in Hpre as [_ Hpre]. eauto.
Qed.

Lemma latestSupported_None (versions : list Version.t) :
  latestSupported versions = None <->
  Forall (fun x => ~ PlatformSupported x) versions.
Proof.
  induction versions as [|v rest IH]; simpl.
  - split; [constructor|done].
  - destruct (supportsCurrentArch v) eqn:Hv.
    + split; [discriminate|]. intros [Hn _]%Forall_cons.
      apply supportsCurrentArch_false in Hn. congruence.
    + rewrite IH. split.
      * intros H. constructor; [by apply supportsCurrentArch_false|done].
      * by intros [_ H]%Forall_cons.
Qed.

Lemma latestSupported_exists (versions : list Version.t) :
  (exists e, e ∈ versions /\ PlatformSupported e) ->
  exists fb, latestSupported versions = Some fb.
Proof.
  intros (e & Hin & He).
  destruct (latestSupported versions) as [fb|] eqn:Hl; [eauto|].
  apply latestSupported_None in Hl. rewrite Forall_forall in Hl.
  exfalso. by apply (Hl e).
Qed.

(** ** The search for the requested version *)

Lemma rangeVersions_none (versions : list Version.t) (version : string)
      (ver : Version.t) :
  Forall (fun x => Version.Version x <> version) versions ->
  rangeVersions versions version ver = ver.
Proof.
  induction 1 as [|v rest Hv _ IH]; simpl; [done|].
  destruct (String.eqb_spec (Version.Version v) version); [done|apply IH].
Qed.

Lemma rangeVersions_first (pre post : list Version.t) (e ver : Version.t)
      (version : string) :
  Forall (fun x => Version.Version x <> version) pre ->
  Version.Version e = version ->
  rangeVersions (pre ++ e :: post) version ver = e.
Proof.
  intros Hpre He. induction Hpre as [|v rest Hv _ IH]; simpl.
  - by rewrite He, String.eqb_refl.
  - destruct (String.eqb_spec (Version.Version v) version); [done|apply IH].
Qed.

Lemma length_zero_iff (s : string) :
  (String.length s =? 0)%nat = true <-> s = EmptyString.
Proof. destruct s; simpl; split; congruence. Qed.

Lemma eqb_empty_false (s : string) :
  s <> EmptyString -> String.eqb s EmptyString = false.
Proof. intros H. by apply String.eqb_neq. Qed.

(** ** Normalization *)

Lemma removeAll_absent (c : ascii) (s : string) :
  GoStrings.hasByte c (GoStrings.removeAll c s) = false.
Proof.
  induction s as [|a r IH]; simpl; [done|].
  destruct (Ascii.eqb a c) eqn:Hac; simpl; [done|]. by rewrite Hac.
Qed.

Lemma removeAll_id (c : ascii) (s : string) :
  GoStrings.hasByte c s = false -> GoStrings.removeAll c s = s.
Proof.
  induction s as [|a r IH]; simpl; [done|].
  destruct (Ascii.eqb a c); simpl; [discriminate|]. intros H. by rewrite IH.
Qed.

Lemma normalizeVersion_no_prefix (w : string) :
  GoStrings.hasByte " " w = false ->
  GoStrings.HasPrefix w "^" = false ->
  GoStrings.HasPrefix w "v" = false ->
  normalizeVersion w = w.
Proof.
  intros Hsp Hc Hv. unfold normalizeVersion.
  rewrite (removeAll_id _ _ Hsp). simpl. by rewrite Hc, Hv.
Qed.

Lemma normalizeVersion_drop (version w : string) (c : ascii) :
  c = "^"%char \/ c = "v"%char ->
  GoStrings.removeAll " " version = String c w ->
  normalizeVersion version = w.
Proof.
  intros Hc Hr. unfold normalizeVersion. rewrite Hr. simpl.
  destruct Hc as [-> | ->]; by destruct w.
Qed.

Lemma normalizeVersion_no_space (version : string) :
  GoStrings.hasByte " " (normalizeVersion version) = false.
Proof.
  unfold normalizeVersion. simpl.
  pose proof (removeAll_absent " " version) as H.
  destruct (_ || _); [|done].
  destruct (GoStrings.removeAll " " version) as [|a r]; simpl in *; [done|].
  by apply orb_false_iff in H as [_ H].
Qed.

(** ** Version resolution *)

(** What [selectVersion] does once a fallback exists and a specific
    version is requested. *)
Lemma selectVersion_specific (plugin : Plugin.t) (version grafanaVersion : string)
      (fb : Version.t) (log : Log) :
  latestSupportedVersion plugin = Some fb ->
  normalizeVersion version <> EmptyString ->
  let nv := normalizeVersion version in
  let ver := rangeVersions (Plugin.Versions plugin) nv Version.zero in
  selectVersion plugin version grafanaVersion log =
  if (String.length (Version.Version ver) =? 0)%nat then
    ((log ++ [{| level := LvlDebug;
                 message := notFoundMessage (Plugin.ID plugin) nv
                                            (Version.Version fb) |}])%list,
     Err (ErrVersionNotFound (Plugin.ID plugin) nv (SystemInfo grafanaVersion)))
  else if supportsCurrentArch ver then (log, Ok ver)
  else
    ((log ++ [{| level := LvlDebug;
                 message := unsupportedMessage (Plugin.ID plugin) nv
                                               (Version.Version fb) |}])%list,
     Err (ErrVersionUnsupported (Plugin.ID plugin) nv (SystemInfo grafanaVersion))).
Proof.
  intros Hfb Hnv nv ver. unfold selectVersion. rewrite Hfb.
  fold nv. rewrite (eqb_empty_false nv Hnv). fold ver.
  destruct (String.length (Version.Version ver) =? 0)%nat; [reflexivity|].
  destruct (supportsCurrentArch ver); reflexivity.
Qed.

(** C1: with an empty normalized request and at least one supported entry,
    [selectVersion] returns the first entry of the list that passes the
    support check: every entry before it fails the check.  The order of
    the list is not used, so this holds in particular for a catalog sorted
    newest-first, where that entry is the newest supported release. *)
Theorem selectVersion_latest_supported (plugin : Plugin.t)
        (version grafanaVersion : string) (log : Log) :
  normalizeVersion version = EmptyString ->
  (exists e, e ∈ Plugin.Versions plugin /\ PlatformSupported e) ->
  exists pre e post,
    Plugin.Versions plugin = (pre ++ e :: post)%list
    /\ Forall (fun x => ~ PlatformSupported x) pre
    /\ PlatformSupported e
    /\ selectVersion plugin version grafanaVersion log = (log, Ok e).
Proof.
  intros Hnv Hex. destruct (latestSupported_exists _ Hex) as [fb Hfb].
  pose proof Hfb as Hsplit. apply latestSupported_Some in Hsplit.
  destruct Hsplit as (pre & post & Heq & Hpre & Hsup).
  exists pre, fb, post. repeat split; try assumption.
  unfold selectVersion, latestSupportedVersion. by rewrite Hfb, Hnv.
Qed.

(** C2: when some entry is supported, the normalized request is not empty
    and no entry has that version string, [selectVersion] fails with
    [ErrVersionNotFound] carrying the plugin id, the normalized request
    and the system info; it returns no entry. *)
Theorem selectVersion_not_found (plugin : Plugin.t)
        (version grafanaVersion : string) (log : Log) :
  (exists e, e ∈ Plugin.Versions plugin /\ PlatformSupported e) ->
  normalizeVersion version <> EmptyString ->
  Forall (fun e => Version.Version e <> normalizeVersion version)
         (Plugin.Versions plugin) ->
  (selectVersion plugin version grafanaVersion log).2
  = Err (ErrVersionNotFound (Plugin.ID plugin) (normalizeVersion version)
                            (SystemInfo grafanaVersion))
  /\ forall v, (selectVersion plugin version grafanaVersion log).2 <> Ok v.
Proof.
  intros Hex Hnv Hnone. destruct (latestSupported_exists _ Hex) as [fb Hfb].
  rewrite (selectVersion_specific plugin version grafanaVersion fb log Hfb Hnv).
  rewrite (rangeVersions_none _ _ _ Hnone). simpl. split; [reflexivity|discriminate].
Qed.

Lemma selectVersion_no_fallback (plugin : Plugin.t)
      (version grafanaVersion : string) (log : Log) :
  latestSupportedVersion plugin = None ->
  selectVersion plugin version grafanaVersion log
  = (log, Err (ErrVersionUnsupported (Plugin.ID plugin)
                                     (normalizeVersion version)
                                     (SystemInfo grafanaVersion))).
Proof. intros Hnone. unfold selectVersion. by rewrite Hnone. Qed.

(** C4: when no entry is supported, the empty catalog included,
    [selectVersion] fails with [ErrVersionUnsupported] whatever version is
    requested, also one that no entry has. *)
Theorem selectVersion_nothing_supported (plugin : Plugin.t)
        (version grafanaVersion : string) (log : Log) :
  Forall (fun e => ~ PlatformSupported e) (Plugin.Versions plugin) ->
  selectVersion plugin version grafanaVersion log
  = (log, Err (ErrVersionUnsupported (Plugin.ID plugin)
                                     (normalizeVersion version)
                                     (SystemInfo grafanaVersion))).
Proof.
  intros Hnone. apply selectVersion_no_fallback.
  by apply latestSupported_None.
Qed.

(** C3, amended: when some entry is supported, the normalized request is
    not empty, and the first entry of the list whose version string equals
    it has a checksum map with neither the platform key nor [any],
    [selectVersion] fails with [ErrVersionUnsupported] carrying the plugin
    id, the normalized request and the system info. *)
Theorem selectVersion_unsupported (plugin : Plugin.t)
        (version grafanaVersion : string) (log : Log)
        (pre post : list Version.t) (e : Version.t)
        (arch : gmap string ArchMeta) :
  (exists s, s ∈ Plugin.Versions plugin /\ PlatformSupported s) ->
  normalizeVersion version <> EmptyString ->
  Plugin.Versions plugin = (pre ++ e :: post)%list ->
  Forall (fun x => Version.Version x <> normalizeVersion version) pre ->
  Version.Version e = normalizeVersion version ->
  Version.Arch e = Some arch ->
  arch !! osAndArchString = None ->
  arch !! "any" = None ->
  (selectVersion plugin version grafanaVersion log).2
  = Err (ErrVersionUnsupported (Plugin.ID plugin) (normalizeVersion version)
                               (SystemInfo grafanaVersion))
  /\ forall v, (selectVersion plugin version grafanaVersion log).2 <> Ok v.
Proof.
  intros Hex Hnv Heq Hpre He Harch Hos Hany.
  destruct (latestSupported_exists _ Hex) as [fb Hfb].
  rewrite (selectVersion_specific plugin version grafanaVersion fb log Hfb Hnv).
  rewrite Heq, (rangeVersions_first pre post e _ _ Hpre He).
  assert (Hlen : (String.length (Version.Version e) =? 0)%nat = false).
  { destruct (String.length (Version.Version e) =? 0)%nat eqn:Hz; [|done].
    apply length_zero_iff in Hz. congruence. }
  assert (Hsup : supportsCurrentArch e = false).
  { apply supportsCurrentArch_false. unfold PlatformSupported.
    rewrite Harch, Hos, Hany. intros [[? ?]|[? ?]]; discriminate. }
  rewrite Hlen, Hsup. simpl. split; [reflexivity|discriminate].
Qed.

(** C9: an entry whose checksum map is allocated but has no key fails the
    support check on every platform, an entry with no map passes it, and a
    catalog of entries with empty maps resolves to
    [ErrVersionUnsupported] for every request. *)
Theorem empty_arch_never_supported :
  (forall v, Version.Arch v = Some ∅ -> supportsCurrentArch v = false)
  /\ (forall v, Version.Arch v = None -> supportsCurrentArch v = true)
  /\ (forall plugin version grafanaVersion log,
         Forall (fun v => Version.Arch v = Some ∅) (Plugin.Versions plugin) ->
         selectVersion plugin version grafanaVersion log
         = (log, Err (ErrVersionUnsupported (Plugin.ID plugin)
                                            (normalizeVersion version)
                                            (SystemInfo grafanaVersion)))).
Proof.
  assert (Hempty : forall v, Version.Arch v = Some ∅ -> ~ PlatformSupported v).
  { intros v Hv. unfold PlatformSupported. rewrite Hv, !lookup_empty.
    intros [[? ?]|[? ?]]; discriminate. }
  split; [|split].
  - intros v Hv. by apply supportsCurrentArch_false, Hempty.
  - intros v Hv. unfold supportsCurrentArch. by rewrite Hv.
  - intros plugin version grafanaVersion log Hall.
    apply selectVersion_no_fallback, latestSupported_None.
    eapply Forall_impl; [exact Hall|]. exact Hempty.
Qed.

(** C5, amended: normalization deletes every space byte (other
    whitespace is kept) and then drops exactly one leading caret or [v]
    if there is one; so a request whose space-free form is [w], [^w] or
    [vw], for a [w] that starts with neither, resolves exactly as the
    request [w] does. *)
Theorem normalizeVersion_spaces_and_prefix :
  (forall request, GoStrings.hasByte " " (normalizeVersion request) = false)
  /\ (forall request c w,
         c = "^"%char \/ c = "v"%char ->
         GoStrings.removeAll " " request = String c w ->
         normalizeVersion request = w)
  /\ (forall request,
         GoStrings.HasPrefix (GoStrings.removeAll " " request) "^" = false ->
         GoStrings.HasPrefix (GoStrings.removeAll " " request) "v" = false ->
         normalizeVersion request = GoStrings.removeAll " " request)
  /\ (forall request w,
         GoStrings.removeAll " " request = w
         \/ GoStrings.removeAll " " request = String "^" w
         \/ GoStrings.removeAll " " request = String "v" w ->
         GoStrings.HasPrefix w "^" = false ->
         GoStrings.HasPrefix w "v" = false ->
         normalizeVersion request = w
         /\ forall plugin grafanaVersion log,
             selectVersion plugin request grafanaVersion log
             = selectVersion plugin w grafanaVersion log).
Proof.
  split; [exact normalizeVersion_no_space|].
  split; [intros request c w; apply normalizeVersion_drop|].
  assert (Hkeep : forall request,
             GoStrings.HasPrefix (GoStrings.removeAll " " request) "^" = false ->
             GoStrings.HasPrefix (GoStrings.removeAll " " request) "v" = false ->
             normalizeVersion request = GoStrings.removeAll " " request).
  { intros request Hc Hv. unfold normalizeVersion. simpl. by rewrite Hc, Hv. }
  split; [exact Hkeep|].
  intros request w Hcases Hc Hv.
  assert (Hreq : normalizeVersion request = w).
  { destruct Hcases as [H|[H|H]].
    - rewrite <- H in Hc, Hv. rewrite (Hkeep request Hc Hv). exact H.
    - eapply normalizeVersion_drop; [|exact H]. by left.
    - eapply normalizeVersion_drop; [|exact H]. by right. }
  assert (Hw : normalizeVersion w = w).
  { apply normalizeVersion_no_prefix; [|done..].
    rewrite <- Hreq. apply normalizeVersion_no_space. }
  split; [exact Hreq|].
  intros plugin grafanaVersion log. unfold selectVersion. by rewrite Hreq, Hw.
Qed.

(** ** Download options *)

Lemma GetDownloadOptions_run (s : Service) (pluginID version : string)
      (opts : CompatabilityOpts) (log log1 log2 : Log)
      (plugin : Plugin.t) (v : Version.t) :
  pluginMetadata s pluginID (GrafanaVersion opts) log = (log1, Ok plugin) ->
  selectVersion plugin version (GrafanaVersion opts) log1 = (log2, Ok v) ->
  GetDownloadOptions s pluginID version opts log
  = (log2, Ok (buildDownloadOptions v pluginID)).
Proof.
  intros Hmeta Hsel. unfold GetDownloadOptions, bind. by rewrite Hmeta, Hsel.
Qed.

Lemma GetDownloadOptions_inv (s : Service) (pluginID version : string)
      (opts : CompatabilityOpts) (log log2 : Log)
      (o : PluginDownloadOptions.t) :
  GetDownloadOptions s pluginID version opts log = (log2, Ok o) ->
  exists log1 plugin v,
    pluginMetadata s pluginID (GrafanaVersion opts) log = (log1, Ok plugin)
    /\ selectVersion plugin version (GrafanaVersion opts) log1 = (log2, Ok v)
    /\ o = buildDownloadOptions v pluginID.
Proof.
  unfold GetDownloadOptions. unfold bind at 1 2.
  destruct (pluginMetadata s pluginID (GrafanaVersion opts) log)
    as [log1 [plugin|e]]; [|intros [=]].
  destruct (selectVersion plugin version (GrafanaVersion opts) log1)
    as [l [v|e]] eqn:Hsel; [|intros [=]].
  intros [= <- <-]. by exists log1, plugin, v.
Qed.

(** C6: once a version is resolved, [GetDownloadOptions] returns options
    and no error, and their checksum is the one recorded for the platform
    key if there is one, else the one recorded under [any] if there is
    one, else the empty string; an entry with no checksum map gets the
    empty string. *)
Theorem GetDownloadOptions_checksum (s : Service) (pluginID version : string)
        (opts : CompatabilityOpts) (log log1 log2 : Log)
        (plugin : Plugin.t) (v : Version.t) :
  pluginMetadata s pluginID (GrafanaVersion opts) log = (log1, Ok plugin) ->
  selectVersion plugin version (GrafanaVersion opts) log1 = (log2, Ok v) ->
  exists o,
    GetDownloadOptions s pluginID version opts log = (log2, Ok o)
    /\ PluginDownloadOptions.Version o = Version.Version v
    /\ PluginDownloadOptions.Checksum o =
       match Version.Arch v with
       | None => EmptyString
       | Some arch =>
           match arch !! osAndArchString, arch !! "any" with
           | Some m, _ => SHA256 m
           | None, Some m => SHA256 m
           | None, None => EmptyString
           end
       end.
Proof.
  intros Hmeta Hsel. exists (buildDownloadOptions v pluginID).
  split; [by eapply GetDownloadOptions_run|]. split; [reflexivity|].
  simpl. unfold checksumFor. destruct (Version.Arch v) as [arch|]; [|done].
  destruct (arch !! osAndArchString); [done|]. by destruct (arch !! "any").
Qed.

(** C7: the options are a function of the resolved entry, the plugin id
    and the platform: two calls that resolve the same entry for the same
    plugin id, whatever the service, the request and the log were, return
    one and the same options value, whose version is the version of the
    entry, whose checksum is the one the entry records for the platform
    (under the platform key, else under [any], else empty), and whose
    archive URL is exactly the root, the plugin id, [versions], the version
    of the entry and [download], joined by slashes. *)
Theorem GetDownloadOptions_deterministic (s s' : Service)
        (pluginID version version' : string) (opts opts' : CompatabilityOpts)
        (log log1 log2 log' log1' log2' : Log) (plugin plugin' : Plugin.t)
        (v : Version.t) :
  pluginMetadata s pluginID (GrafanaVersion opts) log = (log1, Ok plugin) ->
  selectVersion plugin version (GrafanaVersion opts) log1 = (log2, Ok v) ->
  pluginMetadata s' pluginID (GrafanaVersion opts') log' = (log1', Ok plugin') ->
  selectVersion plugin' version' (GrafanaVersion opts') log1' = (log2', Ok v) ->
  exists o,
    (GetDownloadOptions s pluginID version opts log).2 = Ok o
    /\ (GetDownloadOptions s' pluginID version' opts' log').2 = Ok o
    /\ PluginDownloadOptions.Version o = Version.Version v
    /\ PluginDownloadOptions.Checksum o =
       match Version.Arch v with
       | None => EmptyString
       | Some arch =>
           match arch !! osAndArchString, arch !! "any" with
           | Some m, _ => SHA256 m
           | None, Some m => SHA256 m
           | None, None => EmptyString
           end
       end
    /\ PluginDownloadOptions.PluginZipURL o
       = grafanaComAPIRoot +:+ "/" +:+ pluginID +:+ "/versions/"
         +:+ Version.Version v +:+ "/download".
Proof.
  intros Hmeta Hsel Hmeta' Hsel'. exists (buildDownloadOptions v pluginID).
  rewrite (GetDownloadOptions_run _ _ _ _ _ _ _ _ _ Hmeta Hsel).
  rewrite (GetDownloadOptions_run _ _ _ _ _ _ _ _ _ Hmeta' Hsel').
  split; [reflexivity|]. split; [reflexivity|]. split; [reflexivity|].
  split; [|reflexivity].
  simpl. unfold checksumFor. destruct (Version.Arch v) as [arch|]; [|done].
  destruct (arch !! osAndArchString); [done|]. by destruct (arch !! "any").
Qed.

(** ** Strings *)

Lemma append_nil (t : string) : EmptyString +:+ t = t.
Proof. reflexivity. Qed.

Lemma append_cons (a : ascii) (r t : string) :
  String a r +:+ t = String a (r +:+ t).
Proof. reflexivity. Qed.

Lemma append_assoc (s t u : string) : (s +:+ t) +:+ u = s +:+ t +:+ u.
Proof.
  induction s as [|a r IH]; [done|]. rewrite !append_cons. by f_equal.
Qed.

Lemma length_append (s t : string) :
  String.length (s +:+ t) = (String.length s + String.length t)%nat.
Proof. induction s as [|a r IH]; simpl; [done|]. by f_equal. Qed.

Lemma length_Repeat (c : ascii) (n : nat) :
  String.length (GoStrings.Repeat c n) = n.
Proof. induction n as [|k IH]; simpl; [done|]. by rewrite IH. Qed.

Lemma Contains_length (s sub : string) :
  GoStrings.Contains s sub -> (String.length sub <= String.length s)%nat.
Proof. intros (pre & post & ->). rewrite !length_append. lia. Qed.

Lemma notFoundMessage_fallback (pluginID version fallback : string) :
  GoStrings.Contains (notFoundMessage pluginID version fallback) fallback.
Proof.
  unfold notFoundMessage.
  exists ("Requested plugin version " +:+ pluginID +:+ " v" +:+ version
          +:+ " not found but potential fallback version '"), "' was found".
  by rewrite !append_assoc.
Qed.

Lemma unsupportedMessage_fallback (pluginID version fallback : string) :
  GoStrings.Contains (unsupportedMessage pluginID version fallback) fallback.
Proof.
  unfold unsupportedMessage.
  exists ("Requested plugin version " +:+ pluginID +:+ " v" +:+ version
          +:+ " is not supported on your system but potential fallback version '"),
         "' was found".
  by rewrite !append_assoc.
Qed.

(** C8, amended: when a specifically requested version fails to resolve
    while a fallback exists, the error returned is [ErrVersionNotFound] or
    [ErrVersionUnsupported] with the plugin id, the normalized request and
    the system info, and nothing else; the fallback version is named in
    the one debug line the call appends to the log. *)
Theorem selectVersion_hint_is_logged (plugin : Plugin.t)
        (version grafanaVersion : string) (log log' : Log) (e : error)
        (fb : Version.t) :
  normalizeVersion version <> EmptyString ->
  latestSupportedVersion plugin = Some fb ->
  selectVersion plugin version grafanaVersion log = (log', Err e) ->
  (e = ErrVersionNotFound (Plugin.ID plugin) (normalizeVersion version)
                          (SystemInfo grafanaVersion)
   \/ e = ErrVersionUnsupported (Plugin.ID plugin) (normalizeVersion version)
                                (SystemInfo grafanaVersion))
  /\ exists msg,
      log' = (log ++ [{| level := LvlDebug; message := msg |}])%list
      /\ GoStrings.Contains msg (Version.Version fb).
Proof.
  intros Hnv Hfb.
  rewrite (selectVersion_specific plugin version grafanaVersion fb log Hfb Hnv).
  destruct (String.length _ =? 0)%nat.
  - intros [= <- <-]. split; [by left|]. eexists. split; [reflexivity|].
    apply notFoundMessage_fallback.
  - destruct (supportsCurrentArch _); [discriminate|].
    intros [= <- <-]. split; [by right|]. eexists. split; [reflexivity|].
    apply unsupportedMessage_fallback.
Qed.

(** ** URLs *)









(** ** Further properties of version resolution *)

Lemma rangeVersions_spec (versions : list Version.t) (version : string)
      (ver : Version.t) :
  (Forall (fun x => Version.Version x <> version) versions
   /\ rangeVersions versions version ver = ver)
  \/ (exists pre e post,
         versions = (pre ++ e :: post)%list
         /\ Forall (fun x => Version.Version x <> version) pre
         /\ Version.Version e = version
         /\ rangeVersions versions version ver = e).
Proof.
  induction versions as [|v rest IH]; simpl.
  - left. split; [constructor|reflexivity].
  - destruct (String.eqb_spec (Version.Version v) version) as [Heq|Hne].
    + right. exists [], v, rest. repeat split; [constructor|exact Heq].
    + destruct IH as [[Hall Hr]|(pre & e & post & -> & Hpre & He & Hr)].
      * left. split; [by constructor|exact Hr].
      * right. exists (v :: pre), e, post.
        split; [reflexivity|]. split; [by constructor|]. by split.
Qed.

Lemma latestSupported_elem (versions : list Version.t) (fb : Version.t) :
  latestSupported versions = Some fb ->
  fb ∈ versions /\ PlatformSupported fb.
Proof.
  intros (pre & post & -> & _ & Hsup)%latestSupported_Some.
  split; [|exact Hsup]. apply list_elem_of_In, in_or_app. right. by left.
Qed.

Lemma selectVersion_Ok_inv (plugin : Plugin.t)
      (version grafanaVersion : string) (log log' : Log) (v : Version.t) :
  selectVersion plugin version grafanaVersion log = (log', Ok v) ->
  v ∈ Plugin.Versions plugin /\ supportsCurrentArch v = true /\ log' = log.
Proof.
  destruct (latestSupportedVersion plugin) as [fb|] eqn:Hfb.
  - destruct (string_dec (normalizeVersion version) EmptyString) as [Hnv|Hnv].
    + unfold selectVersion. rewrite Hfb, Hnv. simpl. intros [= <- <-].
      destruct (latestSupported_elem _ _ Hfb) as [Hin Hsup].
      split; [exact Hin|]. split; [by apply supportsCurrentArch_spec|done].
    + rewrite (selectVersion_specific plugin version grafanaVersion fb log Hfb Hnv).
      cbv zeta.
      destruct (rangeVersions_spec (Plugin.Versions plugin)
                                   (normalizeVersion version) Version.zero)
        as [[_ ->]|(pre & e & post & Heq & _ & He & ->)].
      * simpl. discriminate.
      * destruct (String.length (Version.Version e) =? 0)%nat; [discriminate|].
        destruct (supportsCurrentArch e) eqn:Hsup; [|discriminate].
        intros [= <- <-]. split; [|by split].
        rewrite Heq. apply list_elem_of_In, in_or_app. right. by left.
  - rewrite (selectVersion_no_fallback plugin version grafanaVersion log Hfb).
    discriminate.
Qed.

(** A requested version that resolves is the version of the entry
    returned. *)
Lemma selectVersion_Ok_requested (plugin : Plugin.t)
      (version grafanaVersion : string) (log log' : Log) (v : Version.t) :
  selectVersion plugin version grafanaVersion log = (log', Ok v) ->
  normalizeVersion version <> EmptyString ->
  Version.Version v = normalizeVersion version.
Proof.
  intros Hrun Hnv.
  destruct (latestSupportedVersion plugin) as [fb|] eqn:Hfb.
  - rewrite (selectVersion_specific plugin version grafanaVersion fb log Hfb Hnv)
      in Hrun. cbv zeta in Hrun.
    destruct (rangeVersions_spec (Plugin.Versions plugin)
                                 (normalizeVersion version) Version.zero)
      as [[_ Hr]|(pre & e & post & _ & _ & He & Hr)]; rewrite Hr in Hrun.
    + simpl in Hrun. discriminate.
    + destruct (String.length (Version.Version e) =? 0)%nat; [discriminate|].
      destruct (supportsCurrentArch e); [|discriminate]. by injection Hrun as _ <-.
  - rewrite (selectVersion_no_fallback plugin version grafanaVersion log Hfb)
      in Hrun. discriminate.
Qed.

(** X1: what [selectVersion] returns is an entry of the catalog that passes the
    support check; it has the requested version string when one was
    requested, and nothing is logged. *)
Theorem selectVersion_returns_supported_entry (plugin : Plugin.t)
        (version grafanaVersion : string) (log log' : Log) (v : Version.t) :
  selectVersion plugin version grafanaVersion log = (log', Ok v) ->
  v ∈ Plugin.Versions plugin
  /\ PlatformSupported v
  /\ log' = log
  /\ (normalizeVersion version <> EmptyString ->
      Version.Version v = normalizeVersion version).
Proof.
  intros Hrun. destruct (selectVersion_Ok_inv _ _ _ _ _ _ Hrun) as (Hin & Hsup & Hlog).
  split; [exact Hin|]. split; [by apply supportsCurrentArch_spec|].
  split; [exact Hlog|]. by apply (selectVersion_Ok_requested _ _ _ _ _ _ Hrun).
Qed.

(** X2: [selectVersion] fails with [ErrVersionNotFound] exactly when some entry
    is supported, a version is requested and no entry has that version
    string; the error then carries the plugin id, the normalized request
    and the system info. *)
Theorem selectVersion_not_found_iff (plugin : Plugin.t)
        (version grafanaVersion : string) (log : Log) :
  (exists p r i,
      (selectVersion plugin version grafanaVersion log).2
      = Err (ErrVersionNotFound p r i))
  <-> ((exists e, e ∈ Plugin.Versions plugin /\ PlatformSupported e)
       /\ normalizeVersion version <> EmptyString
       /\ Forall (fun e => Version.Version e <> normalizeVersion version)
                 (Plugin.Versions plugin)).
Proof.
  split.
  - intros (p & r & i & Herr).
    destruct (latestSupportedVersion plugin) as [fb|] eqn:Hfb.
    + destruct (latestSupported_elem _ _ Hfb) as [Hin Hsup].
      split; [by exists fb|].
      destruct (string_dec (normalizeVersion version) EmptyString) as [Hnv|Hnv].
      * unfold selectVersion in Herr. rewrite Hfb, Hnv in Herr. discriminate.
      * split; [exact Hnv|].
        rewrite (selectVersion_specific plugin version grafanaVersion fb log Hfb Hnv)
          in Herr. cbv zeta in Herr.
        destruct (rangeVersions_spec (Plugin.Versions plugin)
                                     (normalizeVersion version) Version.zero)
          as [[Hall _]|(pre & e & post & _ & _ & He & Hr)]; [exact Hall|].
        rewrite Hr in Herr.
        assert (Hlen : (String.length (Version.Version e) =? 0)%nat = false).
        { destruct (String.length (Version.Version e) =? 0)%nat eqn:Hz; [|done].
          apply length_zero_iff in Hz. congruence. }
        rewrite Hlen in Herr. destruct (supportsCurrentArch e); discriminate.
    + rewrite (selectVersion_no_fallback plugin version grafanaVersion log Hfb)
        in Herr. discriminate.
  - intros (Hex & Hnv & Hall).
    destruct (latestSupported_exists _ Hex) as [fb Hfb].
    rewrite (selectVersion_specific plugin version grafanaVersion fb log Hfb Hnv).
    rewrite (rangeVersions_none _ _ _ Hall). simpl. eauto.
Qed.

(** X3: [selectVersion] returns no other error than the two resolution errors,
    each with the plugin id, the normalized request and the system info. *)
Theorem selectVersion_error_kinds (plugin : Plugin.t)
        (version grafanaVersion : string) (log log' : Log) (e : error) :
  selectVersion plugin version grafanaVersion log = (log', Err e) ->
  e = ErrVersionNotFound (Plugin.ID plugin) (normalizeVersion version)
                         (SystemInfo grafanaVersion)
  \/ e = ErrVersionUnsupported (Plugin.ID plugin) (normalizeVersion version)
                               (SystemInfo grafanaVersion).
Proof.
  destruct (latestSupportedVersion plugin) as [fb|] eqn:Hfb.
  - destruct (string_dec (normalizeVersion version) EmptyString) as [Hnv|Hnv].
    + unfold selectVersion. rewrite Hfb, Hnv. discriminate.
    + rewrite (selectVersion_specific plugin version grafanaVersion fb log Hfb Hnv).
      cbv zeta. destruct (String.length _ =? 0)%nat; [intros [= _ <-]; by left|].
      destruct (supportsCurrentArch _); [discriminate|]. intros [= _ <-]. by right.
  - rewrite (selectVersion_no_fallback plugin version grafanaVersion log Hfb).
    intros [= _ <-]. by right.
Qed.

(** X4: [selectVersion] only appends to the log: at most one line, at debug
    level, and none when it returns an entry or when no entry is
    supported. *)
Theorem selectVersion_log (plugin : Plugin.t)
        (version grafanaVersion : string) (log : Log) :
  exists extra,
    (selectVersion plugin version grafanaVersion log).1 = (log ++ extra)%list
    /\ (length extra <= 1)%nat
    /\ Forall (fun line => level line = LvlDebug) extra
    /\ ((exists v, (selectVersion plugin version grafanaVersion log).2 = Ok v)
        -> extra = [])
    /\ (latestSupportedVersion plugin = None -> extra = []).
Proof.
  destruct (latestSupportedVersion plugin) as [fb|] eqn:Hfb.
  - destruct (string_dec (normalizeVersion version) EmptyString) as [Hnv|Hnv].
    + exists []. unfold selectVersion. rewrite Hfb, Hnv. simpl.
      rewrite app_nil_r. repeat split; [lia|constructor].
    + rewrite (selectVersion_specific plugin version grafanaVersion fb log Hfb Hnv).
      cbv zeta. destruct (String.length _ =? 0)%nat.
      * eexists [_]. simpl. split; [reflexivity|]. split; [lia|].
        split; [by repeat constructor|]. split; [by intros [? ?]|done].
      * destruct (supportsCurrentArch _).
        -- exists []. simpl. rewrite app_nil_r. repeat split; [lia|constructor].
        -- eexists [_]. simpl. split; [reflexivity|]. split; [lia|].
           split; [by repeat constructor|]. split; [by intros [? ?]|done].
  - exists []. rewrite (selectVersion_no_fallback plugin version grafanaVersion log Hfb).
    simpl. rewrite app_nil_r. repeat split; [lia|constructor].
Qed.

(** What [selectVersion] does for a requested version whose first entry
    in the list is [e]. *)
Lemma selectVersion_requested (plugin : Plugin.t)
      (version grafanaVersion : string) (log : Log)
      (pre post : list Version.t) (e fb : Version.t) :
  latestSupportedVersion plugin = Some fb ->
  normalizeVersion version <> EmptyString ->
  Plugin.Versions plugin = (pre ++ e :: post)%list ->
  Forall (fun x => Version.Version x <> normalizeVersion version) pre ->
  Version.Version e = normalizeVersion version ->
  selectVersion plugin version grafanaVersion log
  = if supportsCurrentArch e then (log, Ok e)
    else ((log ++ [{| level := LvlDebug;
                      message := unsupportedMessage (Plugin.ID plugin)
                                   (normalizeVersion version)
                                   (Version.Version fb) |}])%list,
          Err (ErrVersionUnsupported (Plugin.ID plugin) (normalizeVersion version)
                                     (SystemInfo grafanaVersion))).
Proof.
  intros Hfb Hnv Heq Hpre He.
  rewrite (selectVersion_specific plugin version grafanaVersion fb log Hfb Hnv).
  rewrite Heq, (rangeVersions_first pre post e _ _ Hpre He).
  assert (Hlen : (String.length (Version.Version e) =? 0)%nat = false).
  { destruct (String.length (Version.Version e) =? 0)%nat eqn:Hz; [|done].
    apply length_zero_iff in Hz. congruence. }
  by rewrite Hlen.
Qed.

(** X5: a version that is requested, and that the first entry with that
    version string supports, resolves to that entry, and nothing is
    logged. *)
Theorem selectVersion_found_supported (plugin : Plugin.t)
        (version grafanaVersion : string) (log : Log)
        (pre post : list Version.t) (e : Version.t) :
  normalizeVersion version <> EmptyString ->
  Plugin.Versions plugin = (pre ++ e :: post)%list ->
  Forall (fun x => Version.Version x <> normalizeVersion version) pre ->
  Version.Version e = normalizeVersion version ->
  PlatformSupported e ->
  selectVersion plugin version grafanaVersion log = (log, Ok e).
Proof.
  intros Hnv Heq Hpre He Hsup.
  assert (Hex : exists s, s ∈ Plugin.Versions plugin /\ PlatformSupported s).
  { exists e. split; [|exact Hsup]. rewrite Heq.
    apply list_elem_of_In, in_or_app. right. by left. }
  destruct (latestSupported_exists _ Hex) as [fb Hfb].
  rewrite (selectVersion_specific plugin version grafanaVersion fb log Hfb Hnv).
  rewrite Heq, (rangeVersions_first pre post e _ _ Hpre He).
  assert (Hlen : (String.length (Version.Version e) =? 0)%nat = false).
  { destruct (String.length (Version.Version e) =? 0)%nat eqn:Hz; [|done].
    apply length_zero_iff in Hz. congruence. }
  apply supportsCurrentArch_spec in Hsup. by rewrite Hlen, Hsup.
Qed.

Lemma NoDup_fmap_elem {A B} (f : A -> B) (l : list A) (x y : A) :
  NoDup (f <$> l) -> x ∈ l -> y ∈ l -> f x = f y -> x = y.
Proof.
  induction l as [|a l IH]; simpl; intros Hnd Hx Hy Hf.
  - by apply list_elem_of_In in Hx.
  - apply NoDup_cons in Hnd as [Ha Hnd].
    apply list_elem_of_In in Hx, Hy. simpl in Hx, Hy.
    destruct Hx as [->|Hx], Hy as [->|Hy].
    + reflexivity.
    + exfalso. apply Ha. rewrite Hf. apply list_elem_of_fmap.
      exists y. split; [reflexivity|by apply list_elem_of_In].
    + exfalso. apply Ha. rewrite <- Hf. apply list_elem_of_fmap.
      exists x. split; [reflexivity|by apply list_elem_of_In].
    + apply IH; [exact Hnd|by apply list_elem_of_In..|exact Hf].
Qed.

Lemma first_with_version (versions : list Version.t) (version : string)
      (e : Version.t) :
  NoDup (Version.Version <$> versions) ->
  e ∈ versions ->
  Version.Version e = version ->
  exists pre post,
    versions = (pre ++ e :: post)%list
    /\ Forall (fun x => Version.Version x <> version) pre.
Proof.
  intros Hnd Hin He.
  destruct (rangeVersions_spec versions version Version.zero)
    as [[Hall _]|(pre & e' & post & Heq & Hpre & He' & _)].
  - rewrite Forall_forall in Hall. by destruct (Hall e Hin).
  - assert (e' = e) as ->.
    { apply (NoDup_fmap_elem Version.Version versions);
        [exact Hnd| |exact Hin|congruence].
      rewrite Heq. apply list_elem_of_In, in_or_app. right. by left. }
    by exists pre, post.
Qed.

(** X6: in a catalog whose version strings are distinct, a request for the
    version of an entry is decided by that entry alone: it is returned if
    it passes the support check, and the call fails with
    [ErrVersionUnsupported] if it does not. *)
Theorem selectVersion_distinct_versions (plugin : Plugin.t)
        (version grafanaVersion : string) (log : Log) (e : Version.t) :
  NoDup (Version.Version <$> Plugin.Versions plugin) ->
  (exists s, s ∈ Plugin.Versions plugin /\ PlatformSupported s) ->
  normalizeVersion version <> EmptyString ->
  e ∈ Plugin.Versions plugin ->
  Version.Version e = normalizeVersion version ->
  (selectVersion plugin version grafanaVersion log).2
  = if supportsCurrentArch e then Ok e
    else Err (ErrVersionUnsupported (Plugin.ID plugin) (normalizeVersion version)
                                    (SystemInfo grafanaVersion)).
Proof.
  intros Hnd Hex Hnv Hin He.
  destruct (latestSupported_exists _ Hex) as [fb Hfb].
  destruct (first_with_version _ _ _ Hnd Hin He) as (pre & post & Heq & Hpre).
  rewrite (selectVersion_requested plugin version grafanaVersion log pre post e fb
             Hfb Hnv Heq Hpre He).
  by destruct (supportsCurrentArch e).
Qed.

(** X7: in a catalog whose version strings are distinct, a request that
    normalizes to the version of the latest supported entry resolves as the
    empty request does: to that entry. *)
Theorem selectVersion_request_for_latest (plugin : Plugin.t)
        (version grafanaVersion : string) (log : Log) (fb : Version.t) :
  NoDup (Version.Version <$> Plugin.Versions plugin) ->
  latestSupportedVersion plugin = Some fb ->
  Version.Version fb <> EmptyString ->
  normalizeVersion version = Version.Version fb ->
  selectVersion plugin version grafanaVersion log
  = selectVersion plugin EmptyString grafanaVersion log.
Proof.
  intros Hnd Hfb Hne Hreq.
  destruct (latestSupported_elem _ _ Hfb) as [Hin Hsup].
  assert (Hnv : normalizeVersion version <> EmptyString) by congruence.
  destruct (first_with_version _ _ _ Hnd Hin (eq_sym Hreq))
    as (pre & post & Heq & Hpre).
  rewrite (selectVersion_requested plugin version grafanaVersion log pre post fb fb
             Hfb Hnv Heq Hpre (eq_sym Hreq)).
  apply supportsCurrentArch_spec in Hsup. rewrite Hsup.
  unfold selectVersion. by rewrite Hfb.
Qed.

(** X8: an entry whose version string contains a space is never returned for a
    requested version: it can only be returned as the latest supported
    entry of an empty request. *)
Theorem selectVersion_space_in_version (plugin : Plugin.t)
        (version grafanaVersion : string) (log log' : Log) (v : Version.t) :
  selectVersion plugin version grafanaVersion log = (log', Ok v) ->
  GoStrings.hasByte " " (Version.Version v) = true ->
  normalizeVersion version = EmptyString
  /\ latestSupportedVersion plugin = Some v.
Proof.
  intros Hrun Hsp.
  destruct (string_dec (normalizeVersion version) EmptyString) as [Hnv|Hnv].
  - split; [exact Hnv|]. unfold selectVersion in Hrun. rewrite Hnv in Hrun.
    destruct (latestSupportedVersion plugin); [|discriminate].
    simpl in Hrun. by injection Hrun as _ ->.
  - rewrite (selectVersion_Ok_requested _ _ _ _ _ _ Hrun Hnv) in Hsp.
    rewrite normalizeVersion_no_space in Hsp. discriminate.
Qed.

(** ** Further properties of normalization *)

Lemma removeAll_app (c : ascii) (s t : string) :
  GoStrings.removeAll c (s +:+ t)
  = GoStrings.removeAll c s +:+ GoStrings.removeAll c t.
Proof.
  induction s as [|a r IH]; [reflexivity|].
  rewrite append_cons. simpl. destruct (Ascii.eqb a c); [exact IH|].
  by rewrite append_cons, IH.
Qed.

Lemma HasPrefix_cons (a c : ascii) (r : string) :
  GoStrings.HasPrefix (String a r) (String c EmptyString) = Ascii.eqb c a.
Proof.
  unfold GoStrings.HasPrefix.
  change (String.prefix (String c EmptyString) (String a r))
    with (if ascii_dec c a then String.prefix EmptyString r else false).
  destruct (ascii_dec c a) as [->|Hne].
  - rewrite Ascii.eqb_refl. by destruct r.
  - symmetry. by apply Ascii.eqb_neq.
Qed.

(** X9: a request means the latest version exactly when, once its spaces are
    deleted, it is empty, a lone caret or a lone [v]. *)
Theorem normalizeVersion_empty_iff (version : string) :
  normalizeVersion version = EmptyString
  <-> (GoStrings.removeAll " " version = EmptyString
       \/ GoStrings.removeAll " " version = "^"
       \/ GoStrings.removeAll " " version = "v").
Proof.
  unfold normalizeVersion. cbv zeta.
  destruct (GoStrings.removeAll " " version) as [|a r].
  - split; [by left|done].
  - rewrite !HasPrefix_cons.
    destruct (Ascii.eqb_spec "^" a) as [<-|Hc];
      [|destruct (Ascii.eqb_spec "v" a) as [<-|Hv]]; simpl.
    + split; [intros ->; right; by left|]. intros [H|[H|H]]; congruence.
    + split; [intros ->; right; by right|]. intros [H|[H|H]]; congruence.
    + split; [discriminate|]. intros [H|[H|H]]; congruence.
Qed.

(** X10: a space anywhere in the request changes nothing: the request resolves
    as it does without the space. *)
Theorem selectVersion_ignores_spaces (plugin : Plugin.t)
        (before after grafanaVersion : string) (log : Log) :
  normalizeVersion (before +:+ String " " after) = normalizeVersion (before +:+ after)
  /\ selectVersion plugin (before +:+ String " " after) grafanaVersion log
     = selectVersion plugin (before +:+ after) grafanaVersion log.
Proof.
  assert (Hn : normalizeVersion (before +:+ String " " after)
               = normalizeVersion (before +:+ after)).
  { unfold normalizeVersion. by rewrite !removeAll_app. }
  split; [exact Hn|]. unfold selectVersion. by rewrite Hn.
Qed.

(** ** The catalog grows at its end *)

Lemma latestSupported_app (versions extra : list Version.t) (fb : Version.t) :
  latestSupported versions = Some fb ->
  latestSupported (versions ++ extra) = Some fb.
Proof.
  induction versions as [|v rest IH]; simpl; [discriminate|].
  destruct (supportsCurrentArch v); [done|exact IH].
Qed.

Lemma rangeVersions_app (versions extra : list Version.t) (version : string)
      (ver e : Version.t) :
  e ∈ versions ->
  Version.Version e = version ->
  rangeVersions (versions ++ extra) version ver = rangeVersions versions version ver.
Proof.
  intros Hin He. induction versions as [|v rest IH]; simpl.
  - by apply list_elem_of_In in Hin.
  - destruct (String.eqb_spec (Version.Version v) version) as [_|Hne]; [done|].
    apply IH. apply list_elem_of_In in Hin. destruct Hin as [->|Hin]; [done|].
    by apply list_elem_of_In.
Qed.

(** X11: entries added after the end of a catalog that has a supported entry do
    not change what the empty request, or a request for a version the
    catalog already has, resolves to, nor what is logged. *)
Theorem selectVersion_appended_entries (id : string)
        (versions extra : list Version.t) (version grafanaVersion : string)
        (log : Log) :
  (exists s, s ∈ versions /\ PlatformSupported s) ->
  (normalizeVersion version = EmptyString
   \/ exists e, e ∈ versions /\ Version.Version e = normalizeVersion version) ->
  selectVersion {| Plugin.ID := id; Plugin.Versions := versions ++ extra |}
                version grafanaVersion log
  = selectVersion {| Plugin.ID := id; Plugin.Versions := versions |}
                  version grafanaVersion log.
Proof.
  intros Hex Hreq. destruct (latestSupported_exists _ Hex) as [fb Hfb].
  unfold selectVersion, latestSupportedVersion. simpl.
  rewrite (latestSupported_app _ extra _ Hfb), Hfb.
  destruct Hreq as [->|(e & Hin & He)]; [reflexivity|].
  by rewrite (rangeVersions_app versions extra _ Version.zero e Hin He).
Qed.

(** ** The support check reads the keys only *)

(** X12: two entries whose checksum maps have the same keys pass or fail the
    support check together, whatever checksums are recorded. *)
Theorem supportsCurrentArch_keys (v v' : Version.t)
        (arch arch' : gmap string ArchMeta) :
  Version.Arch v = Some arch ->
  Version.Arch v' = Some arch' ->
  dom arch = dom arch' ->
  supportsCurrentArch v = supportsCurrentArch v'.
Proof.
  intros Ha Ha' Hdom.
  assert (Hiff : PlatformSupported v <-> PlatformSupported v').
  { unfold PlatformSupported. rewrite Ha, Ha'.
    rewrite <- !elem_of_dom, Hdom. reflexivity. }
  destruct (supportsCurrentArch v) eqn:Hv, (supportsCurrentArch v') eqn:Hv';
    try reflexivity.
  - apply supportsCurrentArch_spec, Hiff, supportsCurrentArch_spec in Hv. congruence.
  - apply supportsCurrentArch_spec, Hiff, supportsCurrentArch_spec in Hv'. congruence.
Qed.

(** ** Further properties of the metadata request and of downloading *)

(** X15: the checksum in the options is one that the catalog records: for the
    entry returned, of the catalog fetched, it is the checksum stored under
    the platform key, or under [any] when the platform key is absent; it is
    the empty string only for an entry without a checksum map or when the
    recorded checksum is empty. *)
Theorem GetDownloadOptions_checksum_recorded (s : Service)
        (pluginID version : string) (opts : CompatabilityOpts)
        (log log' : Log) (o : PluginDownloadOptions.t) :
  GetDownloadOptions s pluginID version opts log = (log', Ok o) ->
  exists log1 plugin v,
    pluginMetadata s pluginID (GrafanaVersion opts) log = (log1, Ok plugin)
    /\ log' = log1
    /\ v ∈ Plugin.Versions plugin
    /\ PluginDownloadOptions.Version o = Version.Version v
    /\ match Version.Arch v with
       | None => PluginDownloadOptions.Checksum o = EmptyString
       | Some arch =>
           exists m,
             (arch !! osAndArchString = Some m
              \/ (arch !! osAndArchString = None /\ arch !! "any" = Some m))
             /\ PluginDownloadOptions.Checksum o = SHA256 m
       end.
Proof.
  intros Hrun.
  destruct (GetDownloadOptions_inv _ _ _ _ _ _ _ Hrun)
    as (log1 & plugin & v & Hmeta & Hsel & ->).
  destruct (selectVersion_Ok_inv _ _ _ _ _ _ Hsel) as (Hin & Hsup & ->).
  exists log1, plugin, v. split; [exact Hmeta|]. split; [reflexivity|].
  split; [exact Hin|]. split; [reflexivity|].
  apply supportsCurrentArch_spec in Hsup. unfold PlatformSupported in Hsup.
  simpl. unfold checksumFor. destruct (Version.Arch v) as [arch|]; [|reflexivity].
  destruct (arch !! osAndArchString) as [m|] eqn:Hos.
  - exists m. split; [by left|reflexivity].
  - destruct Hsup as [[m Hm]|[m Hm]]; [discriminate|].
    exists m. rewrite Hm. split; [right; by split|reflexivity].
Qed.

Lemma Download_run (s : Service) (pluginID version : string)
      (opts : CompatabilityOpts) (log : Log) :
  Download s pluginID version opts log =
  match GetDownloadOptions s pluginID version opts log with
  | (l, Ok o) =>
      client_download (PluginDownloadOptions.PluginZipURL o)
                      (PluginDownloadOptions.Checksum o) (GrafanaVersion opts) l
  | (l, Err e) => (l, Err e)
  end.
Proof. reflexivity. Qed.



(** X17: for a resolved entry without a checksum map, [Download] does what
    [DownloadWithURL] does for the archive URL of that entry: the client
    gets the empty checksum. *)
Theorem Download_source_only (s : Service) (pluginID version : string)
        (opts : CompatabilityOpts) (log log1 log2 : Log)
        (plugin : Plugin.t) (v : Version.t) :
  pluginMetadata s pluginID (GrafanaVersion opts) log = (log1, Ok plugin) ->
  selectVersion plugin version (GrafanaVersion opts) log1 = (log2, Ok v) ->
  Version.Arch v = None ->
  Download s pluginID version opts log
  = DownloadWithURL s (zipURL pluginID (Version.Version v)) opts log2.
Proof.
  intros Hmeta Hsel Harch.
  rewrite Download_run, (GetDownloadOptions_run _ _ _ _ _ _ _ _ _ Hmeta Hsel).
  unfold DownloadWithURL. simpl. unfold checksumFor. by rewrite Harch.
Qed.


(** ** The archive URL determines the plugin and the version *)

Lemma append_cancel_l (s a b : string) : s +:+ a = s +:+ b -> a = b.
Proof.
  induction s as [|c r IH]; [done|]. rewrite !append_cons. intros [= H]. by apply IH.
Qed.

Lemma append_cancel_r (a b s : string) : a +:+ s = b +:+ s -> a = b.
Proof.
  revert b. induction a as [|c r IH]; intros [|d b] H.
  - reflexivity.
  - apply (f_equal String.length) in H. rewrite append_nil, length_append in H.
    simpl in H. lia.
  - apply (f_equal String.length) in H. rewrite append_nil, length_append in H.
    simpl in H. lia.
  - rewrite !append_cons in H. injection H as -> H. f_equal. by apply IH.
Qed.

Lemma split_at_first (c : ascii) (a a' t t' : string) :
  GoStrings.hasByte c a = false ->
  GoStrings.hasByte c a' = false ->
  a +:+ String c t = a' +:+ String c t' ->
  a = a' /\ t = t'.
Proof.
  revert a'. induction a as [|x a IH]; intros [|y a'] Ha Ha' H.
  - rewrite !append_nil in H. by injection H as ->.
  - rewrite append_nil, append_cons in H. injection H as <- _.
    simpl in Ha'. by rewrite Ascii.eqb_refl in Ha'.
  - rewrite append_nil, append_cons in H. injection H as -> _.
    simpl in Ha. by rewrite Ascii.eqb_refl in Ha.
  - rewrite !append_cons in H. injection H as -> H.
    simpl in Ha, Ha'. apply orb_false_iff in Ha as [_ Ha], Ha' as [_ Ha'].
    destruct (IH a' Ha Ha' H) as [-> ->]. by split.
Qed.

(** X19: plugin ids without a slash: two archive URLs are equal only for the
    same plugin id and the same version. *)
Theorem zipURL_inj (pluginID pluginID' version version' : string) :
  GoStrings.hasByte "/" pluginID = false ->
  GoStrings.hasByte "/" pluginID' = false ->
  zipURL pluginID version = zipURL pluginID' version' ->
  pluginID = pluginID' /\ version = version'.
Proof.
  intros Hid Hid' Heq. unfold zipURL in Heq.
  apply append_cancel_l, append_cancel_l in Heq.
  change ("/versions/" +:+ version +:+ "/download")
    with (String "/" ("versions/" +:+ version +:+ "/download")) in Heq.
  change ("/versions/" +:+ version' +:+ "/download")
    with (String "/" ("versions/" +:+ version' +:+ "/download")) in Heq.
  destruct (split_at_first _ _ _ _ _ Hid Hid' Heq) as [-> Hrest].
  split; [reflexivity|].
  by apply append_cancel_l, append_cancel_r in Hrest.
Qed.

End Service.

(** ** The service on the sample catalogs *)

Import Samples.

(** The catalog whose newest release is for another platform resolves to
    the next one. *)
Example selectVersion_skips_unsupported :
  selectVersion linux systemInfo catalog EmptyString "10.0.0" []
  = ([], Ok (entry "2.0" (only "any" "a2"))).
Proof. vm_compute. reflexivity. Qed.

Example selectVersion_prefixes :
  selectVersion linux systemInfo catalog "^ 1.0" "10.0.0" []
  = selectVersion linux systemInfo catalog "1.0" "10.0.0" []
  /\ selectVersion linux systemInfo catalog "v1.0 " "10.0.0" []
     = ([], Ok (entry "1.0" (only "any" "a1"))).
Proof. split; vm_compute; reflexivity. Qed.

Example selectVersion_windows_only_release :
  selectVersion linux systemInfo catalog "3.0" "10.0.0" []
  = ([{| level := LvlDebug;
         message := "Requested plugin version test-panel v3.0 is not supported on your system but potential fallback version '2.0' was found" |}],
     Err (ErrVersionUnsupported "test-panel" "3.0" "Grafana v10.0.0 linux-amd64")).
Proof. vm_compute. reflexivity. Qed.

Example GetDownloadOptions_catalog :
  GetDownloadOptions linux systemInfo join server decode official
                     "test-panel" EmptyString opts []
  = ([{| level := LvlDebug;
         message := fetchingMessage "test-panel" grafanaComAPIRoot |}],
     Ok {| PluginDownloadOptions.Version := "2.0";
           PluginDownloadOptions.Checksum := "a2";
           PluginDownloadOptions.PluginZipURL :=
             "https://grafana.com/api/plugins/test-panel/versions/2.0/download" |}).
Proof. vm_compute. reflexivity. Qed.

Example metadataURL_official :
  metadataURL join official "test-panel"
  = Ok {| GoUrl.Scheme := "https"; GoUrl.Opaque := EmptyString;
          GoUrl.Host := "grafana.com";
          GoUrl.Path := "/api/plugins/repo/test-panel";
          GoUrl.RawQuery := EmptyString; GoUrl.Fragment := EmptyString |}.
Proof. vm_compute. reflexivity. Qed.

Example Parse_query_and_fragment :
  GoUrl.Parse "https://grafana.com/api/plugins?x=1#top"
  = Ok {| GoUrl.Scheme := "https"; GoUrl.Opaque := EmptyString;
          GoUrl.Host := "grafana.com"; GoUrl.Path := "/api/plugins";
          GoUrl.RawQuery := "x=1"; GoUrl.Fragment := "top" |}.
Proof. vm_compute. reflexivity. Qed.

Example Parse_userinfo_and_port :
  GoUrl.Parse "HTTP://bob:pw@example.org:8080"
  = Ok {| GoUrl.Scheme := "http"; GoUrl.Opaque := EmptyString;
          GoUrl.Host := "example.org:8080"; GoUrl.Path := EmptyString;
          GoUrl.RawQuery := EmptyString; GoUrl.Fragment := EmptyString |}.
Proof. vm_compute. reflexivity. Qed.

Example Parse_relative_path :
  GoUrl.Parse "repo/x"
  = Ok {| GoUrl.Scheme := EmptyString; GoUrl.Opaque := EmptyString;
          GoUrl.Host := EmptyString; GoUrl.Path := "repo/x";
          GoUrl.RawQuery := EmptyString; GoUrl.Fragment := EmptyString |}.
Proof. vm_compute. reflexivity. Qed.

(** ** The theorems at concrete inputs *)

Lemma in_catalog_2_0 : entry "2.0" (only "any" "a2") ∈ Plugin.Versions catalog.
Proof. apply list_elem_of_In. simpl. tauto. Qed.

Lemma supported_2_0 : PlatformSupported linux (entry "2.0" (only "any" "a2")).
Proof. right. exists {| SHA256 := "a2" |}. vm_compute. reflexivity. Qed.

Lemma catalog_has_supported :
  exists e, e ∈ Plugin.Versions catalog /\ PlatformSupported linux e.
Proof. exists (entry "2.0" (only "any" "a2")). split; [apply in_catalog_2_0|apply supported_2_0]. Qed.

Lemma selectVersion_latest_supported_witness :
  exists pre e post,
    Plugin.Versions catalog = (pre ++ e :: post)%list
    /\ Forall (fun x => ~ PlatformSupported linux x) pre
    /\ PlatformSupported linux e
    /\ selectVersion linux systemInfo catalog " " "10.0.0" [] = ([], Ok e).
Proof.
  apply (selectVersion_latest_supported linux systemInfo catalog " " "10.0.0" []).
  - vm_compute. reflexivity.
  - apply catalog_has_supported.
Defined.

Lemma selectVersion_not_found_witness :
  (selectVersion linux systemInfo catalog "9.9.9" "10.0.0" []).2
  = Err (ErrVersionNotFound "test-panel" "9.9.9" (systemInfo "10.0.0"))
  /\ forall v, (selectVersion linux systemInfo catalog "9.9.9" "10.0.0" []).2 <> Ok v.
Proof.
  apply (selectVersion_not_found linux systemInfo catalog "9.9.9" "10.0.0" []).
  - apply catalog_has_supported.
  - vm_compute. discriminate.
  - repeat constructor; vm_compute; discriminate.
Defined.

Lemma selectVersion_nothing_supported_witness :
  selectVersion linux systemInfo windowsOnly "9.9.9" "10.0.0" []
  = ([], Err (ErrVersionUnsupported "test-panel" "9.9.9" (systemInfo "10.0.0"))).
Proof.
  apply (selectVersion_nothing_supported linux systemInfo windowsOnly "9.9.9" "10.0.0" []).
  repeat constructor. intros [[x Hx]|[x Hx]]; vm_compute in Hx; discriminate.
Defined.

Lemma selectVersion_unsupported_witness :
  (selectVersion linux systemInfo catalog "v3.0" "10.0.0" []).2
  = Err (ErrVersionUnsupported "test-panel" "3.0" (systemInfo "10.0.0"))
  /\ forall v, (selectVersion linux systemInfo catalog "v3.0" "10.0.0" []).2 <> Ok v.
Proof.
  apply (selectVersion_unsupported linux systemInfo catalog "v3.0" "10.0.0" []
           [] [entry "2.0" (only "any" "a2"); entry "1.0" (only "any" "a1")]
           (entry "3.0" (only windows "w3")) {[ windows := {| SHA256 := "w3" |} ]}).
  - apply catalog_has_supported.
  - vm_compute. discriminate.
  - reflexivity.
  - constructor.
  - reflexivity.
  - reflexivity.
  - vm_compute. reflexivity.
  - vm_compute. reflexivity.
Defined.

Lemma empty_arch_never_supported_witness :
  supportsCurrentArch linux (entry "2.0" (Some ∅)) = false
  /\ supportsCurrentArch linux (entry "2.0" None) = true
  /\ selectVersion linux systemInfo emptyArch "2.0" "10.0.0" []
     = ([], Err (ErrVersionUnsupported "test-panel" "2.0" (systemInfo "10.0.0"))).
Proof.
  destruct (empty_arch_never_supported linux systemInfo) as (Hempty & Hnil & Hall).
  split; [apply Hempty; reflexivity|]. split; [apply Hnil; reflexivity|].
  apply (Hall emptyArch "2.0" "10.0.0" []). repeat constructor.
Defined.

Lemma normalizeVersion_spaces_and_prefix_witness :
  normalizeVersion " ^ 2 . 0 " = "2.0"
  /\ forall plugin grafanaVersion log,
      selectVersion linux systemInfo plugin " ^ 2 . 0 " grafanaVersion log
      = selectVersion linux systemInfo plugin "2.0" grafanaVersion log.
Proof.
  destruct (normalizeVersion_spaces_and_prefix linux systemInfo) as (_ & _ & _ & H).
  apply (H " ^ 2 . 0 " "2.0").
  - right. left. vm_compute. reflexivity.
  - reflexivity.
  - reflexivity.
Defined.

Lemma GetDownloadOptions_checksum_witness :
  exists o,
    GetDownloadOptions linux systemInfo join server decode official
                       "test-panel" "1.0" opts []
    = ([{| level := LvlDebug;
           message := fetchingMessage "test-panel" grafanaComAPIRoot |}], Ok o)
    /\ PluginDownloadOptions.Version o = "1.0"
    /\ PluginDownloadOptions.Checksum o = "a1".
Proof.
  apply (GetDownloadOptions_checksum linux systemInfo join server decode official
           "test-panel" "1.0" opts []
           [{| level := LvlDebug;
               message := fetchingMessage "test-panel" grafanaComAPIRoot |}]
           [{| level := LvlDebug;
               message := fetchingMessage "test-panel" grafanaComAPIRoot |}]
           catalog (entry "1.0" (only "any" "a1"))).
  - vm_compute. reflexivity.
  - vm_compute. reflexivity.
Defined.

Lemma GetDownloadOptions_deterministic_witness :
  exists o,
    (GetDownloadOptions linux systemInfo join server decode official
                        "test-panel" "1.0" opts []).2 = Ok o
    /\ (GetDownloadOptions linux systemInfo join server decode mirror
                           "test-panel" "v 1.0" opts
                           [{| level := LvlError; message := "earlier" |}]).2 = Ok o
    /\ PluginDownloadOptions.Version o = "1.0"
    /\ PluginDownloadOptions.Checksum o = "a1"
    /\ PluginDownloadOptions.PluginZipURL o
       = "https://grafana.com/api/plugins/test-panel/versions/1.0/download".
Proof.
  apply (GetDownloadOptions_deterministic linux systemInfo join server decode
           official mirror "test-panel" "1.0" "v 1.0" opts opts
           []
           [{| level := LvlDebug;
               message := fetchingMessage "test-panel" grafanaComAPIRoot |}]
           [{| level := LvlDebug;
               message := fetchingMessage "test-panel" grafanaComAPIRoot |}]
           [{| level := LvlError; message := "earlier" |}]
           [{| level := LvlError; message := "earlier" |};
            {| level := LvlDebug;
               message := fetchingMessage "test-panel" (repoURL mirror) |}]
           [{| level := LvlError; message := "earlier" |};
            {| level := LvlDebug;
               message := fetchingMessage "test-panel" (repoURL mirror) |}]
           catalog catalog (entry "1.0" (only "any" "a1"))).
  - vm_compute. reflexivity.
  - vm_compute. reflexivity.
  - vm_compute. reflexivity.
  - vm_compute. reflexivity.
Defined.

Lemma selectVersion_hint_is_logged_witness :
  (ErrVersionNotFound "test-panel" "9.9.9" (systemInfo "10.0.0")
   = ErrVersionNotFound (Plugin.ID catalog) (normalizeVersion "9.9.9")
                        (systemInfo "10.0.0")
   \/ ErrVersionNotFound "test-panel" "9.9.9" (systemInfo "10.0.0")
      = ErrVersionUnsupported (Plugin.ID catalog) (normalizeVersion "9.9.9")
                              (systemInfo "10.0.0"))
  /\ exists msg,
      [{| level := LvlDebug;
          message := notFoundMessage "test-panel" "9.9.9" "2.0" |}]
      = ([] ++ [{| level := LvlDebug; message := msg |}])%list
      /\ GoStrings.Contains msg "2.0".
Proof.
  apply (selectVersion_hint_is_logged linux systemInfo catalog "9.9.9" "10.0.0" []
           [{| level := LvlDebug;
               message := notFoundMessage "test-panel" "9.9.9" "2.0" |}]
           (ErrVersionNotFound "test-panel" "9.9.9" (systemInfo "10.0.0"))
           (entry "2.0" (only "any" "a2"))).
  - vm_compute. discriminate.
  - vm_compute. reflexivity.
  - vm_compute. reflexivity.
Defined.


(** ** Where the claims as stated fail *)

(** C3 as stated fails when a version string is published twice: the second
    entry for 2.0 equals the request and has a checksum map with neither
    the platform key nor [any], yet the request resolves, to the first
    entry for 2.0. *)
Lemma selectVersion_duplicate_version_resolves :
  (exists s, s ∈ Plugin.Versions duplicated /\ PlatformSupported linux s)
  /\ (exists e arch,
         e ∈ Plugin.Versions duplicated
         /\ Version.Version e = normalizeVersion "2.0"
         /\ Version.Arch e = Some arch
         /\ arch !! linux = None
         /\ arch !! "any" = None)
  /\ selectVersion linux systemInfo duplicated "2.0" "10.0.0" []
     = ([], Ok (entry "2.0" None)).
Proof.
  split; [|split].
  - exists (entry "2.0" None). split; [|exact I].
    apply list_elem_of_In. simpl. by left.
  - exists (entry "2.0" (only windows "w2")), {[ windows := {| SHA256 := "w2" |} ]}.
    split; [apply list_elem_of_In; simpl; by right; left|].
    repeat split; vm_compute; reflexivity.
  - vm_compute. reflexivity.
Qed.

(** The same failure with an empty request: it equals the empty version
    string of an unsupported entry, and resolves to the fallback. *)
Example selectVersion_empty_version_string :
  Version.Version (entry EmptyString (only windows "w0")) = normalizeVersion " "
  /\ supportsCurrentArch linux (entry EmptyString (only windows "w0")) = false
  /\ selectVersion linux systemInfo unnamed " " "10.0.0" []
     = ([], Ok (entry "1.0" None)).
Proof. repeat split; vm_compute; reflexivity. Qed.

(** C5 as stated fails on whitespace other than the space: a tab survives
    normalization, so the request with a tab inside does not resolve as the
    request 2.0 does. *)
Lemma normalizeVersion_keeps_tab :
  GoStrings.hasWhitespace tabbed = true
  /\ normalizeVersion tabbed = tabbed
  /\ GoStrings.hasWhitespace (normalizeVersion tabbed) = true
  /\ selectVersion linux systemInfo sourceOnly "2.0" "10.0.0" []
     = ([], Ok (entry "2.0" None))
  /\ (selectVersion linux systemInfo sourceOnly tabbed "10.0.0" []).2
     = Err (ErrVersionNotFound "test-panel" tabbed (systemInfo "10.0.0")).
Proof. repeat split; vm_compute; reflexivity. Qed.

(** C8 as stated fails: the error is built from the plugin id, the request
    and the system info alone, so no rendering of it names the fallback
    version of every catalog. *)
Lemma no_error_message_names_the_fallback :
  ~ exists render : error -> string,
      forall (plugin : Plugin.t) (version grafanaVersion : string)
             (log log' : Log) (e : error) (fb : Version.t),
        normalizeVersion version <> EmptyString ->
        latestSupportedVersion linux plugin = Some fb ->
        selectVersion linux systemInfo plugin version grafanaVersion log
        = (log', Err e) ->
        GoStrings.Contains (render e) (Version.Version fb).
Proof.
  intros [render Hall].
  set (e := ErrVersionNotFound "test-panel" "9.9.9" (systemInfo "10.0.0")).
  set (long := GoStrings.Repeat "a" (S (String.length (render e)))).
  set (fb := entry long None).
  assert (Hin : GoStrings.Contains (render e) long).
  { apply (Hall (Samples.plugin [fb]) "9.9.9" "10.0.0" []
                [{| level := LvlDebug;
                    message := notFoundMessage "test-panel" "9.9.9" long |}]
                e fb).
    - vm_compute. discriminate.
    - reflexivity.
    - reflexivity. }
  apply Contains_length in Hin. unfold long in Hin.
  rewrite length_Repeat in Hin. lia.
Qed.

(** The error for a request that no entry has is the same value whatever
    the fallback version is. *)
Example selectVersion_error_ignores_fallback :
  (selectVersion linux systemInfo catalog "9.9.9" "10.0.0" []).2
  = Err (ErrVersionNotFound "test-panel" "9.9.9" "Grafana v10.0.0 linux-amd64")
  /\ (selectVersion linux systemInfo unnamed "9.9.9" "10.0.0" []).2
     = (selectVersion linux systemInfo catalog "9.9.9" "10.0.0" []).2
  /\ latestSupportedVersion linux catalog = Some (entry "2.0" (only "any" "a2"))
  /\ latestSupportedVersion linux unnamed = Some (entry "1.0" None).
Proof. repeat split; vm_compute; reflexivity. Qed.


(** ** The further properties at concrete inputs *)

Lemma catalog_distinct : NoDup (Version.Version <$> Plugin.Versions catalog).
Proof.
  apply (bool_decide_unpack (NoDup (Version.Version <$> Plugin.Versions catalog))).
  vm_compute. exact I.
Qed.

Lemma selectVersion_returns_supported_entry_witness :
  entry "1.0" (only "any" "a1") ∈ Plugin.Versions catalog
  /\ PlatformSupported linux (entry "1.0" (only "any" "a1"))
  /\ @nil LogLine = []
  /\ (normalizeVersion "v1.0" <> EmptyString ->
      Version.Version (entry "1.0" (only "any" "a1")) = normalizeVersion "v1.0").
Proof.
  apply (selectVersion_returns_supported_entry linux systemInfo catalog
           "v1.0" "10.0.0" [] []).
  vm_compute. reflexivity.
Defined.

Lemma selectVersion_error_kinds_witness :
  ErrVersionUnsupported "test-panel" "3.0" (systemInfo "10.0.0")
  = ErrVersionNotFound (Plugin.ID catalog) (normalizeVersion "3.0")
                       (systemInfo "10.0.0")
  \/ ErrVersionUnsupported "test-panel" "3.0" (systemInfo "10.0.0")
     = ErrVersionUnsupported (Plugin.ID catalog) (normalizeVersion "3.0")
                             (systemInfo "10.0.0").
Proof.
  apply (selectVersion_error_kinds linux systemInfo catalog "3.0" "10.0.0" []
           [{| level := LvlDebug;
               message := unsupportedMessage "test-panel" "3.0" "2.0" |}]).
  vm_compute. reflexivity.
Defined.

Lemma selectVersion_found_supported_witness :
  selectVersion linux systemInfo catalog "^1.0" "10.0.0" []
  = ([], Ok (entry "1.0" (only "any" "a1"))).
Proof.
  apply (selectVersion_found_supported linux systemInfo catalog "^1.0" "10.0.0" []
           [entry "3.0" (only windows "w3"); entry "2.0" (only "any" "a2")] []).
  - vm_compute. discriminate.
  - reflexivity.
  - repeat constructor; vm_compute; discriminate.
  - reflexivity.
  - right. exists {| SHA256 := "a1" |}. vm_compute. reflexivity.
Defined.

Lemma selectVersion_distinct_versions_witness :
  (selectVersion linux systemInfo catalog "3.0" "10.0.0" []).2
  = if supportsCurrentArch linux (entry "3.0" (only windows "w3"))
    then Ok (entry "3.0" (only windows "w3"))
    else Err (ErrVersionUnsupported (Plugin.ID catalog) (normalizeVersion "3.0")
                                    (systemInfo "10.0.0")).
Proof.
  apply (selectVersion_distinct_versions linux systemInfo catalog "3.0" "10.0.0" []).
  - apply catalog_distinct.
  - apply catalog_has_supported.
  - vm_compute. discriminate.
  - apply list_elem_of_In. simpl. by left.
  - reflexivity.
Defined.

Lemma selectVersion_request_for_latest_witness :
  selectVersion linux systemInfo catalog "v 2.0" "10.0.0" []
  = selectVersion linux systemInfo catalog EmptyString "10.0.0" [].
Proof.
  apply (selectVersion_request_for_latest linux systemInfo catalog "v 2.0" "10.0.0" []
           (entry "2.0" (only "any" "a2"))).
  - apply catalog_distinct.
  - vm_compute. reflexivity.
  - discriminate.
  - vm_compute. reflexivity.
Defined.

Lemma selectVersion_space_in_version_witness :
  normalizeVersion " " = EmptyString
  /\ latestSupportedVersion linux spaced = Some (entry "1 0" None).
Proof.
  apply (selectVersion_space_in_version linux systemInfo spaced " " "10.0.0" [] []).
  - vm_compute. reflexivity.
  - reflexivity.
Defined.

Lemma selectVersion_appended_entries_witness :
  selectVersion linux systemInfo
    {| Plugin.ID := "test-panel";
       Plugin.Versions := [entry "3.0" (only windows "w3");
                           entry "2.0" (only "any" "a2")]
                          ++ [entry "1.0" (only "any" "a1")] |}
    "3.0" "10.0.0" []
  = selectVersion linux systemInfo
      {| Plugin.ID := "test-panel";
         Plugin.Versions := [entry "3.0" (only windows "w3");
                             entry "2.0" (only "any" "a2")] |}
      "3.0" "10.0.0" [].
Proof.
  apply (selectVersion_appended_entries linux systemInfo "test-panel"
           [entry "3.0" (only windows "w3"); entry "2.0" (only "any" "a2")]
           [entry "1.0" (only "any" "a1")] "3.0" "10.0.0" []).
  - exists (entry "2.0" (only "any" "a2")). split.
    + apply list_elem_of_In. simpl. right. by left.
    + apply supported_2_0.
  - right. exists (entry "3.0" (only windows "w3")). split.
    + apply list_elem_of_In. simpl. by left.
    + reflexivity.
Defined.

Lemma supportsCurrentArch_keys_witness :
  supportsCurrentArch linux (entry "2.0" (only "any" "a2"))
  = supportsCurrentArch linux (entry "1.0" (only "any" EmptyString)).
Proof.
  apply (supportsCurrentArch_keys linux
           (entry "2.0" (only "any" "a2")) (entry "1.0" (only "any" EmptyString))
           {[ "any" := {| SHA256 := "a2" |} ]}
           {[ "any" := {| SHA256 := EmptyString |} ]}).
  - reflexivity.
  - reflexivity.
  - by rewrite !dom_singleton_L.
Defined.

Lemma GetDownloadOptions_checksum_recorded_witness :
  exists log1 plugin v,
    pluginMetadata join server decode official "test-panel" (GrafanaVersion opts) []
    = (log1, Ok plugin)
    /\ [fetchingLine official "test-panel"] = log1
    /\ v ∈ Plugin.Versions plugin
    /\ "2.0" = Version.Version v
    /\ match Version.Arch v with
       | None => "a2" = EmptyString
       | Some arch =>
           exists m,
             (arch !! linux = Some m
              \/ (arch !! linux = None /\ arch !! "any" = Some m))
             /\ "a2" = SHA256 m
       end.
Proof.
  apply (GetDownloadOptions_checksum_recorded linux systemInfo join server decode
           official "test-panel" EmptyString opts []
           [fetchingLine official "test-panel"]
           {| PluginDownloadOptions.Version := "2.0";
              PluginDownloadOptions.Checksum := "a2";
              PluginDownloadOptions.PluginZipURL :=
                "https://grafana.com/api/plugins/test-panel/versions/2.0/download" |}).
  vm_compute. reflexivity.
Defined.

Lemma Download_source_only_witness :
  Download linux systemInfo join server decodeSource (string * string) client
           official "test-panel" "v2.0" opts []
  = DownloadWithURL (string * string) client official
                    (zipURL "test-panel" "2.0") opts
                    [fetchingLine official "test-panel"].
Proof.
  apply (Download_source_only linux systemInfo join server decodeSource
           (string * string) client official "test-panel" "v2.0" opts []
           [fetchingLine official "test-panel"]
           [fetchingLine official "test-panel"]
           sourceOnly (entry "2.0" None)).
  - vm_compute. reflexivity.
  - vm_compute. reflexivity.
  - reflexivity.
Defined.

Lemma zipURL_inj_witness :
  "test-panel" = "test-panel" /\ "2.0" = "2.0".
Proof.
  apply (zipURL_inj "test-panel" "test-panel" "2.0" "2.0").
  - reflexivity.
  - reflexivity.
  - reflexivity.
Defined.

(** Without the condition on the plugin id two different pairs give one
    archive URL. *)
Example zipURL_collision :
  zipURL "a/versions/b" "c" = zipURL "a" "b/versions/c".
Proof. vm_compute. reflexivity. Qed.

(** A request that repeats the prefix reaches a version string that starts
    with [v]; a single prefix does not. *)
Example selectVersion_v_prefixed_entry :
  (selectVersion linux systemInfo (Samples.plugin [entry "v1.0" None])
                 "vv1.0" "10.0.0" []).2 = Ok (entry "v1.0" None)
  /\ (selectVersion linux systemInfo (Samples.plugin [entry "v1.0" None])
                    "v1.0" "10.0.0" []).2
     = Err (ErrVersionNotFound "test-panel" "1.0" (systemInfo "10.0.0")).
Proof. split; vm_compute; reflexivity. Qed.
